(** * anilist-tools: a shallow embedding of [utils.py] and [upcoming_sequels.py]

    The request transport ([safe_post_request]), the pagination driver
    ([depaginated_request]), the relation graph walker ([get_related_media]),
    the [async_any] matcher and [main]: the user's media IDs, the seasons
    searched, the relation walks over the network and the printed titles. *)

From Stdlib Require Import ZArith List String Ascii Bool Lia Arith Permutation.
Import ListNotations.
Open Scope string_scope.
Open Scope Z_scope.
Open Scope list_scope.
Set Warnings "-register-all".


(** ** Decoded JSON values, as [requests]' [response.json()] returns them.
    A Python dict is an association list in insertion order (its keys are
    distinct for every dict the program receives). *)

Inductive Json : Type :=
| JNull
| JBool (b : bool)
| JNum (z : Z)
| JStr (s : string)
| JList (l : list Json)
| JObj (kvs : list (string * Json)).

(** Python exceptions the modelled code can raise.  [OutOfFuel] is not a
    Python exception: it is what a loop of the model returns when it has
    run out of its iteration budget, i.e. when the Python loop would still
    be running. *)
Inductive PyExc : Type :=
| AssertionError (msg : string)
| HTTPError (status : Z)
| KeyError
| TypeError
| IndexError
| AttributeError
| ValueError
| JSONDecodeError
| RuntimeError
| OtherException
| OutOfFuel.

Definition Result (A : Type) : Type := (A + PyExc)%type.

(** Truthiness of a decoded value ([bool(x)]). *)
Definition truthy (j : Json) : bool :=
  match j with
  | JNull => false
  | JBool b => b
  | JNum z => negb (z =? 0)
  | JStr s => negb (String.eqb s "")
  | JList l => negb (Nat.eqb (List.length l) 0)
  | JObj kvs => negb (Nat.eqb (List.length kvs) 0)
  end.

Definition has_key (k : string) (kvs : list (string * Json)) : bool :=
  existsb (fun kv => String.eqb (fst kv) k) kvs.

Definition obj_find (k : string) (kvs : list (string * Json)) : option Json :=
  match find (fun kv => String.eqb (fst kv) k) kvs with
  | Some (_, v) => Some v
  | None => None
  end.

(** [k in x] for a string [k]. *)
Definition py_in (k : string) (x : Json) : Result bool :=
  match x with
  | JObj kvs => inl (has_key k kvs)
  | JList l => inl (existsb (fun y => match y with JStr s => String.eqb s k | _ => false end) l)
  | JStr s => inl (match String.index 0 k s with Some _ => true | None => false end)
  | _ => inr TypeError
  end.

(** [x[k]] for a string [k]. *)
Definition py_getitem (x : Json) (k : string) : Result Json :=
  match x with
  | JObj kvs => match obj_find k kvs with Some v => inl v | None => inr KeyError end
  | _ => inr TypeError
  end.

(** [len(x)]. *)
Definition py_len (x : Json) : Result nat :=
  match x with
  | JObj kvs => inl (List.length kvs)
  | JList l => inl (List.length l)
  | JStr s => inl (String.length s)
  | _ => inr TypeError
  end.

(** [d[k] = v] on a dict: replace in place, or append a new key. *)
Fixpoint dict_set (k : string) (v : Json) (kvs : list (string * Json)) : list (string * Json) :=
  match kvs with
  | [] => [(k, v)]
  | (k', v') :: rest =>
      if String.eqb k' k then (k', v) :: rest else (k', v') :: dict_set k v rest
  end.

(** ** The world the program runs in, and a state and error monad over it. *)

Record Response : Type := mkResponse {
  status_code : Z;
  headers : list (string * string);
  body : option Json   (** [None]: the body is not valid JSON *)
}.

(** What one [requests.post] call does. *)
Inductive PostOutcome : Type :=
| PResp (r : Response)
| PJsException        (** the pyodide [JsException] of the rate-limit path *)
| PException.         (** any other exception *)

(** The network: the outcome of the [n]-th POST of the run, given its body. *)
Definition Net : Type := nat -> Json -> PostOutcome.

(** Lines written to the console. *)
Inductive Line : Type :=
| LRetryMsg (secs : Z)   (** ["Rate limit encountered; waiting {secs} seconds..."] *)
| LErase (secs : Z)      (** the blanks that overwrite that message *)
| LValue (j : Json)      (** [print(x)] of a decoded value *)
| LText (s : string)     (** [print(s)] of a string constant *)
| LSeason (season : string) (year : Z)   (** [print(f"{season} {year}")] *)
| LTotal (n : Z).        (** [print(f"\nTotal queries: {n}")] *)

Record World : Type := mkWorld {
  total_queries : Z;          (** [safe_post_request.total_queries] *)
  sent : list Json;           (** the JSON bodies posted so far *)
  slept_ms : list Z;          (** the [asyncio.sleep] durations, in ms *)
  stdout : list Line
}.

Definition M (A : Type) : Type := World -> Result A * World.

Definition ret {A} (a : A) : M A := fun w => (inl a, w).
Definition raise {A} (e : PyExc) : M A := fun w => (inr e, w).
Definition lift {A} (r : Result A) : M A := fun w => (r, w).
Definition bind {A B} (m : M A) (k : A -> M B) : M B :=
  fun w => match m w with
           | (inl a, w') => k a w'
           | (inr e, w') => (inr e, w')
           end.

Notation "'let!' x ':=' m 'in' k" := (bind m (fun x => k))
  (at level 200, x name, m at level 100, k at level 200).
Notation "m ;; k" := (bind m (fun _ => k)) (at level 100, right associativity).

Definition tell (l : Line) : M unit :=
  fun w => (inl tt, mkWorld (total_queries w) (sent w) (slept_ms w) (stdout w ++ [l])).
Definition sleep (ms : Z) : M unit :=
  fun w => (inl tt, mkWorld (total_queries w) (sent w) (slept_ms w ++ [ms]) (stdout w)).
Definition count_query : M unit :=
  fun w => (inl tt, mkWorld (total_queries w + 1) (sent w) (slept_ms w) (stdout w)).

(** [requests]' header dict is case-insensitive. *)
Definition ascii_lower (c : ascii) : ascii :=
  let n := nat_of_ascii c in
  if (65 <=? n)%nat && (n <=? 90)%nat then ascii_of_nat (n + 32) else c.

Fixpoint str_lower (s : string) : string :=
  match s with
  | EmptyString => EmptyString
  | String c r => String (ascii_lower c) (str_lower r)
  end.

Definition header_get (name : string) (hs : list (string * string)) : option string :=
  match find (fun kv => String.eqb (str_lower (fst kv)) (str_lower name)) hs with
  | Some (_, v) => Some v
  | None => None
  end.

(** [int(s)] on a header value (a [str]): surrounding whitespace is
    stripped, then an optional sign and decimal digits, with single
    underscores allowed between digits; anything else raises [ValueError].
    The characters are those of a latin-1 decoded header, and the
    whitespace is [str.isspace]'s in that range. *)
Definition is_py_space (c : ascii) : bool :=
  let n := nat_of_ascii c in
  ((9 <=? n) && (n <=? 13))%nat || ((28 <=? n) && (n <=? 32))%nat
  || (n =? 133)%nat || (n =? 160)%nat.

Fixpoint strip_left (l : list ascii) : list ascii :=
  match l with
  | c :: r => if is_py_space c then strip_left r else l
  | [] => []
  end.

Definition py_strip (l : list ascii) : list ascii :=
  rev (strip_left (rev (strip_left l))).

Definition digit_value (c : ascii) : option Z :=
  let n := Z.of_nat (nat_of_ascii c) in
  if (48 <=? n) && (n <=? 57) then Some (n - 48) else None.

(** The digits after a first digit, [acc] being the value so far. *)
Fixpoint digits_rest (l : list ascii) (acc : Z) : option Z :=
  match l with
  | [] => Some acc
  | c :: r =>
      match digit_value c with
      | Some v => digits_rest r (acc * 10 + v)
      | None =>
          if Ascii.eqb c "_"%char then
            match r with
            | d :: r' =>
                match digit_value d with
                | Some v => digits_rest r' (acc * 10 + v)
                | None => None
                end
            | [] => None
            end
          else None
      end
  end.

Definition digits_val (l : list ascii) : option Z :=
  match l with
  | c :: r => match digit_value c with Some v => digits_rest r v | None => None end
  | [] => None
  end.

Definition parse_int (s : string) : option Z :=
  match py_strip (list_ascii_of_string s) with
  | "-"%char :: r => option_map Z.opp (digits_val r)
  | "+"%char :: r => digits_val r
  | l => digits_val l
  end.

(** [response.ok]: [raise_for_status] raises exactly for 4xx and 5xx. *)
Definition response_ok (status : Z) : bool :=
  negb ((400 <=? status) && (status <? 600)).

Definition response_json (r : Response) : M Json :=
  match body r with
  | Some j => ret j
  | None => raise JSONDecodeError
  end.

(** ** The page shape handling of [depaginated_request] *)

Definition rbind {A B} (r : Result A) (k : A -> Result B) : Result B :=
  match r with
  | inl a => k a
  | inr e => inr e
  end.

Notation "'let?' x ':=' r 'in' k" := (rbind r (fun x => k))
  (at level 200, x name, r at level 100, k at level 200).

Definition MAX_PAGE_SIZE : Z := 50.

Definition msg_no_page_info : string := "Could not find pageInfo in paginated request.".
Definition msg_multiple : string := "Cannot de-paginate query with multiple returned fields.".

(** [while 'pageInfo' not in response_data: assert response_data; assert
    len(response_data) == 1; response_data = response_data[next(iter(response_data))]].
    On a dict the loop descends into the single value.  A list or string
    that passes both assertions is indexed by its only element (or by
    itself), which raises [TypeError] or [IndexError], at the latest on
    the next membership test. *)
Fixpoint unwrap (response_data : Json) : Result Json :=
  match response_data with
  | JObj kvs =>
      if has_key "pageInfo" kvs then inl response_data
      else match kvs with
           | [] => inr (AssertionError msg_no_page_info)
           | [(_, v)] => unwrap v
           | _ => inr (AssertionError msg_multiple)
           end
  | _ =>
      let? found := py_in "pageInfo" response_data in
      if found then inl response_data
      else if negb (truthy response_data) then inr (AssertionError msg_no_page_info)
      else
        let? n := py_len response_data in
        if negb (Nat.eqb n 1) then inr (AssertionError msg_multiple)
        else match response_data with
             | JList [JNum z] => if (z =? 0) || (z =? -1) then inr TypeError else inr IndexError
             | JList [JBool b] => if b then inr IndexError else inr TypeError
             | _ => inr TypeError
             end
  end.

(** [out_list.extend(v)] *)
Definition extend_items (v : Json) : Result (list Json) :=
  match v with
  | JList l => inl l
  | JObj kvs => inl (map (fun kv => JStr (fst kv)) kvs)
  | JStr s => inl (map (fun c => JStr (String c EmptyString)) (list_ascii_of_string s))
  | _ => inr TypeError
  end.

(** One page: unwrap, [assert len(response_data) == 2], take the first
    non-[pageInfo] value, and read [pageInfo.hasNextPage]. *)
Definition process_page (response_data : Json) : Result (list Json * bool) :=
  let? d := unwrap response_data in
  let? n := py_len d in
  if negb (Nat.eqb n 2) then inr (AssertionError msg_multiple)
  else match d with
       | JObj kvs =>
           match find (fun kv => negb (String.eqb (fst kv) "pageInfo")) kvs with
           | None => inr RuntimeError   (* [StopIteration] out of [next] in a coroutine *)
           | Some (_, v) =>
               let? items := extend_items v in
               let? page_info := py_getitem d "pageInfo" in
               let? has_next := py_getitem page_info "hasNextPage" in
               inl (items, truthy has_next)
           end
       | _ => inr AttributeError   (* [.items()] of a list or a string *)
       end.

Definition page_request (query : string) (paginated_variables : list (string * Json)) : Json :=
  JObj [("query", JStr query); ("variables", JObj paginated_variables)].

Section Transport.
Variable net : Net.

(** [requests.post(URL, json=post_json)] *)
Definition post (req : Json) : M PostOutcome :=
  fun w => (inl (net (List.length (sent w)) req),
            mkWorld (total_queries w) (sent w ++ [req]) (slept_ms w) (stdout w)).

(** The [while response is None or response.status_code == 429] loop of
    [safe_post_request]; [response] is the last response received. *)
Fixpoint spr_loop (fuel : nat) (verbose : bool) (post_json : Json)
    (response : option Response) {struct fuel} : M Response :=
  let again :=
    match fuel with
    | O => raise OutOfFuel
    | S f =>
        let! o := post post_json in
        match o with
        | PJsException =>
            tell (LRetryMsg 61);; sleep 61000;; tell (LErase 61);;
            spr_loop f verbose post_json response
        | PException => raise OtherException
        | PResp r =>
            (match header_get "Retry-After" (headers r) with
             | Some v =>
                 match parse_int v with
                 | None => raise ValueError
                 | Some n =>
                     let retry_after := n + 1 in
                     (if verbose then tell (LRetryMsg retry_after) else ret tt);;
                     sleep (retry_after * 1000);;
                     (if verbose then tell (LErase retry_after) else ret tt)
                 end
             | None => sleep 100
             end);;
            spr_loop f verbose post_json (Some r)
        end
    end in
  match response with
  | Some r => if status_code r =? 429 then again else ret r
  | None => again
  end.

Definition safe_post_request (fuel : nat) (verbose : bool) (post_json : Json) : M Json :=
  let! response := spr_loop fuel verbose post_json None in
  count_query;;
  (if response_ok (status_code response) then ret tt
   else
     let! j := response_json response in
     let! has_errors := lift (py_in "errors" j) in
     (if has_errors then
        let! j' := response_json response in
        let! errs := lift (py_getitem j' "errors") in
        tell (LValue errs)
      else ret tt);;
     raise (HTTPError (status_code response)));;
  let! j := response_json response in
  lift (py_getitem j "data").

(** The [while True] loop of [depaginated_request]; [paginated_variables]
    is the dict mutated in place by [paginated_variables['page'] = page_num]. *)
Fixpoint depag_loop (fuel : nat) (verbose : bool) (query : string)
    (paginated_variables : list (string * Json)) (page_num : Z)
    (out_list : list Json) : M (list Json) :=
  match fuel with
  | O => raise OutOfFuel
  | S f =>
      let pv := dict_set "page" (JNum page_num) paginated_variables in
      let! response_data := safe_post_request fuel verbose (page_request query pv) in
      let! page := lift (process_page response_data) in
      let out_list' := out_list ++ fst page in
      if negb (snd page) then ret out_list'
      else depag_loop f verbose query pv (page_num + 1) out_list'
  end.

Definition depaginated_request (fuel : nat) (verbose : bool) (query : string)
    (variables : list (string * Json)) : M (list Json) :=
  depag_loop fuel verbose query (dict_set "perPage" (JNum MAX_PAGE_SIZE) variables) 1 [].

End Transport.

(** ** The relation graph walker: [get_related_media] *)

(** A relation node as the query returns it (its [tags] by name). *)
Record Media : Type := mkMedia {
  media_id : Z;
  title_english : option string;
  title_romaji : string;
  media_type : string;
  media_format : string;
  tags : list string
}.

Record Edge : Type := mkEdge {
  relationType : string;
  node : Media
}.

(** [Media(id: $mediaId).relations.edges] for each media ID. *)
Definition Relations : Type := Z -> list Edge.

(** Python sets of IDs, as duplicate-free lists. *)
Definition Z_mem (x : Z) (s : list Z) : bool := existsb (Z.eqb x) s.

Definition set_add (x : Z) (s : list Z) : list Z :=
  if Z_mem x s then s else s ++ [x].

Fixpoint remove_at (i : nat) (l : list Z) : list Z :=
  match l, i with
  | [], _ => []
  | _ :: r, O => r
  | x :: r, S j => x :: remove_at j r
  end.

(** [queue.pop()] removes an arbitrary element; [choice] says which. *)
Definition set_pop (choice : nat) (s : list Z) : option (Z * list Z) :=
  match s with
  | [] => None
  | x :: _ =>
      let i := Nat.modulo choice (List.length s) in
      Some (nth i s x, remove_at i s)
  end.

Definition chain_types : list string := ["SEQUEL"; "PREQUEL"; "SOURCE"; "ALTERNATIVE"].

(** The negation of the [continue] condition: chain through the node. *)
Definition should_expand (relation : Edge) : bool :=
  negb (negb (existsb (String.eqb (relationType relation)) chain_types)
        || existsb (fun name => String.eqb name "Crossover") (tags (node relation))).

(** The generator's state: [queue], [related_show_ids] and the edges of
    the current [for relation in relations] loop still to be processed. *)
Record WState : Type := mkWState {
  wqueue : list Z;
  wvisited : list Z;
  wpending : list Edge
}.

Definition walk_init (show_id : Z) : WState := mkWState [show_id] [show_id] [].

(** One step of the generator: one edge of the inner loop (yielding the
    node when it is new and not the root), or, with the inner loop done,
    one [queue.pop()] and the fetch of its relations.  [None]: the queue is
    empty and the generator is exhausted. *)
Definition walk_step (rel : Relations) (show_id : Z) (choice : nat) (st : WState)
    : option (option Media * WState) :=
  match wpending st with
  | relation :: rest =>
      let show := node relation in
      if negb (Z_mem (media_id show) (wvisited st)) then
        let visited' := set_add (media_id show) (wvisited st) in
        let y := if negb (media_id show =? show_id) then Some show else None in
        let queue' :=
          if should_expand relation then set_add (media_id show) (wqueue st) else wqueue st in
        Some (y, mkWState queue' visited' rest)
      else Some (None, mkWState (wqueue st) (wvisited st) rest)
  | [] =>
      match set_pop choice (wqueue st) with
      | None => None
      | Some (cur_show_id, queue') =>
          Some (None, mkWState queue' (wvisited st) (rel cur_show_id))
      end
  end.

Definition opt_list {A} (o : option A) : list A :=
  match o with Some a => [a] | None => [] end.

(** Running the generator to exhaustion; [sched k] is the choice of the
    [k]-th step's [pop].  [None]: the fuel ran out first. *)
Fixpoint walk_run (rel : Relations) (show_id : Z) (sched : nat -> nat) (k : nat)
    (fuel : nat) (st : WState) : option (list Media) :=
  match fuel with
  | O => None
  | S f =>
      match walk_step rel show_id (sched k) st with
      | None => Some []
      | Some (y, st') =>
          option_map (fun ys => opt_list y ++ ys) (walk_run rel show_id sched (S k) f st')
      end
  end.

Definition get_related_media (rel : Relations) (show_id : Z) (sched : nat -> nat)
    (fuel : nat) : option (list Media) :=
  walk_run rel show_id sched 0 fuel (walk_init show_id).

(** The yields of a partial run of one invocation, whatever each [pop] picks. *)
Inductive walk_trace (rel : Relations) (show_id : Z) : WState -> list Media -> WState -> Prop :=
| wt_refl st : walk_trace rel show_id st [] st
| wt_step st ys st1 choice y st2 :
    walk_trace rel show_id st ys st1 ->
    walk_step rel show_id choice st1 = Some (y, st2) ->
    walk_trace rel show_id st (ys ++ opt_list y) st2.

(** ** The membership matcher: [async_any] over the generator expression
    [related_media['id'] in user_media_ids for related_media in walk].
    The result comes with the number of items pulled from the iterable. *)
Fixpoint async_any (things : list bool) : bool * nat :=
  match things with
  | [] => (false, O)
  | thing :: rest =>
      if thing then (true, 1%nat)
      else let (b, n) := async_any rest in (b, S n)
  end.

Definition has_upcoming_relation (user_media_ids : list Z) (yields : list Media) : bool * nat :=
  async_any (map (fun related_media => Z_mem (media_id related_media) user_media_ids) yields).

(** ** [main]: the user's media IDs and the printed titles *)

Record Args : Type := mkArgs {
  username : string;
  planning : bool;     (** [-p/--planning] *)
  completed : bool     (** [-c/--completed] *)
}.

Definition query_user_id : string :=
"
query ($username: String) {
    User (name: $username) {
        id
    }
}".

Definition query_user_media : string :=
"
query ($userId: Int, $status: MediaListStatus, $page: Int, $perPage: Int) {
    Page (page: $page, perPage: $perPage) {
        pageInfo {
            hasNextPage
        }
        # Note that a MediaList object is actually a single list entry, hence the need for pagination
        # IMPORTANT: Always include MEDIA_ID in the sort, as the anilist API is bugged - if ties are possible,
        #            pagination can omit some results while duplicating others at the page borders.
        mediaList(userId: $userId, status: $status, sort: [SCORE_DESC, MEDIA_ID]) {
            media {
                id
                title {
                    english
                    romaji
                }
            }
        }
    }
}".

(** Python sets of decoded values.  [hash(x)] raises [TypeError] for a
    list or a dict; membership is [==], under which [True == 1] and
    [False == 0]. *)
Definition py_hashable (j : Json) : bool :=
  match j with
  | JList _ | JObj _ => false
  | _ => true
  end.

Definition num_of (j : Json) : option Z :=
  match j with
  | JNum z => Some z
  | JBool b => Some (if b then 1 else 0)
  | _ => None
  end.

(** [a == b] on hashable values. *)
Definition py_key_eq (a b : Json) : bool :=
  match a, b with
  | JNull, JNull => true
  | JStr s, JStr t => String.eqb s t
  | _, _ => match num_of a, num_of b with
            | Some x, Some y => x =? y
            | _, _ => false
            end
  end.

(** [x in s] *)
Definition py_set_mem (x : Json) (s : list Json) : Result bool :=
  if py_hashable x then inl (existsb (py_key_eq x) s) else inr TypeError.

(** [s.add(x)] for a hashable [x]: an equal element already there stays. *)
Definition py_set_add (x : Json) (s : list Json) : list Json :=
  if existsb (py_key_eq x) s then s else s ++ [x].

Fixpoint map_result {A B} (f : A -> Result B) (l : list A) : Result (list B) :=
  match l with
  | [] => inl []
  | x :: r => let? y := f x in let? ys := map_result f r in inl (y :: ys)
  end.

Fixpoint map_M {A B} (f : A -> M B) (l : list A) : M (list B) :=
  match l with
  | [] => ret []
  | x :: r => let! y := f x in let! ys := map_M f r in ret (y :: ys)
  end.

Section Main.
Variable net : Net.
Variable fuel : nat.

Definition get_user_id_by_name (name : string) : M Json :=
  let! d := safe_post_request net fuel true
              (JObj [("query", JStr query_user_id); ("variables", JObj [("username", JStr name)])]) in
  lift (let? user := py_getitem d "User" in py_getitem user "id").

Definition get_user_media (user_id : Json) (status : string) : M (list Json) :=
  let! entries := depaginated_request net fuel true query_user_media
                    [("userId", user_id); ("status", JStr status)] in
  lift (map_result (fun list_entry => py_getitem list_entry "media") entries).

(** [set(media['id'] for media in await get_user_media(user_id, status))];
    a set is kept as the list of its elements, only membership is used.
    Each element is hashed as it is added. *)
Definition status_media_ids (user_id : Json) (status : string) : M (list Json) :=
  let! media := get_user_media user_id status in
  lift (map_result (fun m => let? id := py_getitem m "id" in
                             if py_hashable id then inl id else inr TypeError) media).

Definition statuses : list string := ["COMPLETED"; "PLANNING"; "CURRENT"].

(** [main] up to [user_media_ids = the union of user_media_ids_by_status.values()]. *)
Definition main_user_media_ids (args : Args) : M (list Json) :=
  let! user_id := get_user_id_by_name (username args) in
  let! user_media_ids_by_status :=
    map_M (fun status => let! ids := status_media_ids user_id status in ret (status, ids))
          statuses in
  ret (List.concat (map snd user_media_ids_by_status)).

Definition query_season_shows : string :=
"
query ($season: MediaSeason, $seasonYear: Int, $page: Int, $perPage: Int) {
    Page (page: $page, perPage: $perPage) {
        pageInfo {
            hasNextPage
        }
        media(season: $season, seasonYear: $seasonYear, type: ANIME, format_in: [TV, MOVIE], sort: POPULARITY_DESC) {
            id
            title {
                english
                romaji
            }
        }
    }
}".

Definition get_season_shows (season : string) (season_year : Z) : M (list Json) :=
  depaginated_request net fuel true query_season_shows
    [("season", JStr season); ("seasonYear", JNum season_year)].

End Main.

(** [show['title']['english'] or show['title']['romaji']] *)
Definition title_to_print (show : Json) : Result Json :=
  let? title := py_getitem show "title" in
  let? english := py_getitem title "english" in
  if truthy english then inl english else py_getitem title "romaji".

(** ** The other helpers of [utils.py] *)

(** [dict_intersection(dicts)]: the keys of the first dict, in its order,
    that every later dict also has. *)
Definition dict_intersection (dicts : list (list (string * Json))) : list string :=
  match dicts with
  | [] => []
  | d0 :: rest => filter (fun k => forallb (fun d => has_key k d) rest) (map fst d0)
  end.

(** [async_all], with the number of items pulled from the iterable. *)
Fixpoint async_all (things : list bool) : bool * nat :=
  match things with
  | [] => (true, O)
  | thing :: rest =>
      if negb thing then (false, 1%nat)
      else let (b, n) := async_all rest in (b, S n)
  end.

(** ** [fuzzy_date_greater_or_equal_to] *)

(** A naive [datetime]. *)
Record DateTime : Type := mkDateTime {
  dt_year : Z; dt_month : Z; dt_day : Z;
  dt_hour : Z; dt_minute : Z; dt_second : Z; dt_microsecond : Z
}.

Definition dt_key (d : DateTime) : list Z :=
  [dt_year d; dt_month d; dt_day d; dt_hour d; dt_minute d; dt_second d; dt_microsecond d].

(** Python's lexicographic [<=] on tuples of ints. *)
Fixpoint lex_le (a b : list Z) : bool :=
  match a, b with
  | [], _ => true
  | _ :: _, [] => false
  | x :: a', y :: b' => (x <? y) || ((x =? y) && lex_le a' b')
  end.

(** [a >= b] on naive datetimes. *)
Definition datetime_ge (a b : DateTime) : bool := lex_le (dt_key b) (dt_key a).

Definition is_leap (y : Z) : bool :=
  (y mod 4 =? 0) && (negb (y mod 100 =? 0) || (y mod 400 =? 0)).

Definition days_in_month (y m : Z) : Z :=
  if m =? 2 then (if is_leap y then 29 else 28)
  else if (m =? 4) || (m =? 6) || (m =? 9) || (m =? 11) then 30
  else 31.

(** An argument of the [datetime] constructor (a C [int]: a bool counts as
    an int, a value outside the C range raises [OverflowError], here
    [OtherException], anything else [TypeError]). *)
Definition py_int_arg (j : Json) : Result Z :=
  match j with
  | JNum z =>
      if (-2147483648 <=? z) && (z <=? 2147483647) then inl z else inr OtherException
  | JBool b => inl (if b then 1 else 0)
  | _ => inr TypeError
  end.

(** [datetime(year=y, month=m, day=d)] *)
Definition make_datetime (y m d : Json) : Result DateTime :=
  let? yy := py_int_arg y in
  let? mm := py_int_arg m in
  let? dd := py_int_arg d in
  if negb ((1 <=? yy) && (yy <=? 9999)) then inr ValueError
  else if negb ((1 <=? mm) && (mm <=? 12)) then inr ValueError
  else if negb ((1 <=? dd) && (dd <=? days_in_month yy mm)) then inr ValueError
  else inl (mkDateTime yy mm dd 0 0 0 0).

(** The left operand of [x > n] or [x >= n] with an int [n]. *)
Definition py_num (j : Json) : Result Z :=
  match j with
  | JNum z => inl z
  | JBool b => inl (if b then 1 else 0)
  | _ => inr TypeError
  end.

(** [x == n] with an int [n]. *)
Definition py_eq_num (j : Json) (n : Z) : bool :=
  match j with
  | JNum z => z =? n
  | JBool b => (if b then 1 else 0) =? n
  | _ => false
  end.

Definition is_none (j : Json) : bool :=
  match j with JNull => true | _ => false end.

Definition fuzzy_date_greater_or_equal_to (fuzzy_date : Json) (date : DateTime) : Result bool :=
  let? day := py_getitem fuzzy_date "day" in
  if negb (is_none day) then
    let? y := py_getitem fuzzy_date "year" in
    let? m := py_getitem fuzzy_date "month" in
    let? d := py_getitem fuzzy_date "day" in
    let? dt := make_datetime y m d in
    inl (datetime_ge dt date)
  else
    let? month := py_getitem fuzzy_date "month" in
    if negb (is_none month) then
      let? y := py_getitem fuzzy_date "year" in
      let? yv := py_num y in
      if dt_year date <? yv then inl true
      else
        let? y' := py_getitem fuzzy_date "year" in
        if negb (py_eq_num y' (dt_year date)) then inl false
        else
          let? m' := py_getitem fuzzy_date "month" in
          let? mv := py_num m' in
          inl (dt_month date <=? mv)
    else
      let? y := py_getitem fuzzy_date "year" in
      if negb (is_none y) then
        let? yv := py_num y in
        inl (dt_year date <=? yv)
      else inl true.

(** ** The seasons [main] searches *)

Definition season_names : list string := ["WINTER"; "SPRING"; "SUMMER"; "FALL"].

(** Iteration [i] of [for i in range(4)], from [cur_date]'s year and month. *)
Definition season_to_search (cur_year cur_month : Z) (i : Z) : string * Z :=
  let season_idx := cur_month / 3 + i in
  let season := nth (Z.to_nat (season_idx mod 4)) season_names EmptyString in
  let year := cur_year + season_idx / 4 in
  (season, year).

Definition seasons_searched (cur_year cur_month : Z) : list (string * Z) :=
  map (season_to_search cur_year cur_month) [0; 1; 2; 3].

(** ** The rest of [main]: the seasons' shows and their relation walks *)

(** [{'SEQUEL', 'PREQUEL', 'SOURCE', 'ALTERNATIVE'}] *)
Definition chain_type_set : list Json := map JStr chain_types.

Fixpoint list_remove_at {A} (i : nat) (l : list A) : list A :=
  match l, i with
  | [], _ => []
  | _ :: r, O => r
  | x :: r, S j => x :: list_remove_at j r
  end.

(** [any(tag['name'] == 'Crossover' for tag in tags)] *)
Fixpoint any_crossover (tags : list Json) : Result bool :=
  match tags with
  | [] => inl false
  | tag :: rest =>
      let? name := py_getitem tag "name" in
      match name with
      | JStr n => if String.eqb n "Crossover" then inl true else any_crossover rest
      | _ => any_crossover rest
      end
  end.

Definition query_related_media : string :=
"
query ($mediaId: Int) {
    Media(id: $mediaId) {
        relations {  # Has pageInfo but doesn't accept page args
            edges {
                relationType
                node {  # Media
                    id
                    title {
                        english
                        romaji
                    }
                    type
                    format
                    tags {
                        name  # Grabbed so we can ignore crossovers to help avoid exploding the search
                    }
                }
            }
        }
    }
}".

(** The state of the [get_related_media] generator: [queue],
    [related_show_ids] and the relations of the current [for] loop still
    to be processed. *)
Record JWState : Type := mkJWState {
  jqueue : list Json;
  jvisited : list Json;
  jpending : list Json
}.

Section MainLoop.
Variable net : Net.
Variable fuel : nat.
(** [queue.pop()]: the index of the element removed from the queue. *)
Variable pick : list Json -> nat.

(** [(await safe_post_request({...}))['Media']['relations']['edges']] and
    the iteration of [for relation in relations]. *)
Definition fetch_relations (cur_show_id : Json) : M (list Json) :=
  let! d := safe_post_request net fuel true
              (JObj [("query", JStr query_related_media);
                     ("variables", JObj [("mediaId", cur_show_id)])]) in
  lift (let? media := py_getitem d "Media" in
        let? relations := py_getitem media "relations" in
        let? edges := py_getitem relations "edges" in
        extend_items edges).

(** [async_any(related_media['id'] in user_media_ids async for related_media
    in get_related_media(show_id))], the generator and the matcher run
    together: each yielded show is tested at once, and the first hit ends
    [async_any] with the generator left suspended.  [steps] bounds the
    number of loop iterations. *)
Fixpoint related_any (steps : nat) (user_media_ids : list Json) (show_id : Json)
    (st : JWState) {struct steps} : M bool :=
  match steps with
  | O => raise OutOfFuel
  | S f =>
      match jpending st with
      | relation :: rest =>
          let! show := lift (py_getitem relation "node") in
          let! sid := lift (py_getitem show "id") in
          let! seen := lift (py_set_mem sid (jvisited st)) in
          if seen then related_any f user_media_ids show_id (mkJWState (jqueue st) (jvisited st) rest)
          else
            let visited' := py_set_add sid (jvisited st) in
            (* [yield show], then [related_media['id'] in user_media_ids] *)
            let! hit := (if negb (py_key_eq sid show_id)
                         then lift (py_set_mem sid user_media_ids) else ret false) in
            if hit then ret true
            else
              let! relation_type := lift (py_getitem relation "relationType") in
              let! chained := lift (py_set_mem relation_type chain_type_set) in
              let! crossover :=
                (if chained then
                   let! tags := lift (py_getitem show "tags") in
                   let! tag_list := lift (extend_items tags) in
                   lift (any_crossover tag_list)
                 else ret false) in
              let queue' := if negb chained || crossover then jqueue st
                            else py_set_add sid (jqueue st) in
              related_any f user_media_ids show_id (mkJWState queue' visited' rest)
      | [] =>
          match jqueue st with
          | [] => ret false
          | q0 :: _ =>
              let i := Nat.modulo (pick (jqueue st)) (List.length (jqueue st)) in
              let cur_show_id := nth i (jqueue st) q0 in
              let! relations := fetch_relations cur_show_id in
              related_any f user_media_ids show_id
                (mkJWState (list_remove_at i (jqueue st)) (jvisited st) relations)
          end
      end
  end.

(** The generator starts with [queue = {show_id}] and
    [related_show_ids = {show_id}]. *)
Definition show_has_related (user_media_ids : list Json) (show_id : Json) : M bool :=
  if py_hashable show_id then
    related_any fuel user_media_ids show_id (mkJWState [show_id] [show_id] [])
  else raise TypeError.

(** The body of [for show in await get_season_shows(...)]. *)
Definition report_show (user_media_ids : list Json) (show : Json) : M unit :=
  let! show_id := lift (py_getitem show "id") in
  let! hit := show_has_related user_media_ids show_id in
  if hit then
    let! title := lift (title_to_print show) in
    tell (LValue title)
  else ret tt.

Fixpoint iter_M {A} (f : A -> M unit) (l : list A) : M unit :=
  match l with
  | [] => ret tt
  | x :: r => f x;; iter_M f r
  end.

Definition rule40 : string := "========================================".

(** Iteration [i] of [for i in range(4)]; [cur_year] and [cur_month] are
    those of [datetime.utcnow()]. *)
Definition search_season (cur_year cur_month : Z) (user_media_ids : list Json) (i : Z) : M unit :=
  let (season, year) := season_to_search cur_year cur_month i in
  (if negb (i =? 0) then tell (LText EmptyString) else ret tt);;
  tell (LSeason season year);;
  tell (LText rule40);;
  let! shows := get_season_shows net fuel season year in
  iter_M (report_show user_media_ids) shows.

Definition report_total : M unit :=
  fun w => (inl tt, mkWorld 0 (sent w) (slept_ms w) (stdout w ++ [LTotal (total_queries w)])).

(** [main(args)] after [parser.parse_args(args)]. *)
Definition main (cur_year cur_month : Z) (args : Args) : M unit :=
  let! user_media_ids := main_user_media_ids net fuel args in
  iter_M (search_season cur_year cur_month user_media_ids) [0; 1; 2; 3];;
  report_total.

End MainLoop.

(** ** Test doubles *)

Definition obj_get (k : string) (j : Json) : option Json :=
  match j with
  | JObj kvs => obj_find k kvs
  | _ => None
  end.

Definition ok_response (data : Json) : Response :=
  mkResponse 200 [] (Some (JObj [("data", data)])).

(** A paginated source of [items]: page [p] of size [pp] holds the items
    [(p-1)*pp .. p*pp-1], and [hasNextPage] is [p*pp < N]. *)
Definition fake_source (items : list Json) : Net :=
  fun _ req =>
    match obj_get "variables" req with
    | Some vars =>
        match obj_get "page" vars, obj_get "perPage" vars with
        | Some (JNum p), Some (JNum pp) =>
            PResp (ok_response
              (JObj [("Page", JObj [
                 ("pageInfo", JObj [("hasNextPage",
                    JBool (p * pp <? Z.of_nat (List.length items)))]);
                 ("media", JList (firstn (Z.to_nat pp) (skipn (Z.to_nat ((p - 1) * pp)) items)))])]))
        | _, _ => PResp (mkResponse 400 [] None)
        end
    | None => PResp (mkResponse 400 [] None)
    end.

(** A sample AniList: user 7 has media 1 COMPLETED, 2 PLANNING and 3
    CURRENT; FALL 2026 has the shows 10, 11 and 13, other seasons none;
    10 is a SEQUEL of 1, 11 has the SEQUEL 12, which has the SIDE_STORY 3,
    and 13 has no relations. *)
Definition demo_title (english : Json) (romaji : string) : Json :=
  JObj [("english", english); ("romaji", JStr romaji)].

Definition demo_media (i : Z) (english : Json) (romaji : string) : Json :=
  JObj [("id", JNum i); ("title", demo_title english romaji)].

Definition demo_edge (relation_type : string) (i : Z) : Json :=
  JObj [("relationType", JStr relation_type);
        ("node", JObj [("id", JNum i); ("title", demo_title JNull "related");
                       ("type", JStr "ANIME"); ("format", JStr "TV"); ("tags", JList [])])].

Definition demo_relations (media_id : Json) : list Json :=
  match media_id with
  | JNum 10 => [demo_edge "PREQUEL" 1]
  | JNum 11 => [demo_edge "SEQUEL" 12]
  | JNum 12 => [demo_edge "PREQUEL" 11; demo_edge "SIDE_STORY" 3]
  | _ => []
  end.

Definition demo_list (status : Json) : list Json :=
  let entry i := JObj [("media", demo_media i JNull "listed")] in
  match status with
  | JStr s => if String.eqb s "COMPLETED" then [entry 1]
              else if String.eqb s "PLANNING" then [entry 2]
              else if String.eqb s "CURRENT" then [entry 3] else []
  | _ => []
  end.

Definition demo_season (season year : Json) : list Json :=
  match season, year with
  | JStr s, JNum 2026 =>
      if String.eqb s "FALL" then
        [demo_media 10 (JStr "Ten") "Juu"; demo_media 11 JNull "Juuichi";
         demo_media 13 (JStr "Thirteen") "Juusan"]
      else []
  | _, _ => []
  end.

Definition demo_net : Net :=
  fun n req =>
    match obj_get "query" req, obj_get "variables" req with
    | Some (JStr q), Some vars =>
        let var k := match obj_get k vars with Some v => v | None => JNull end in
        if String.eqb q query_user_id then
          PResp (ok_response (JObj [("User", JObj [("id", JNum 7)])]))
        else if String.eqb q query_user_media then
          if py_key_eq (var "userId") (JNum 7) then fake_source (demo_list (var "status")) n req
          else fake_source [] n req
        else if String.eqb q query_season_shows then
          fake_source (demo_season (var "season") (var "seasonYear")) n req
        else if String.eqb q query_related_media then
          PResp (ok_response (JObj [("Media", JObj [("relations", JObj [
                   ("edges", JList (demo_relations (var "mediaId")))])])]))
        else PResp (mkResponse 400 [] None)
    | _, _ => PResp (mkResponse 400 [] None)
    end.

(** A 400 response whose body lists the request's errors. *)
Definition resp_400_errors : Response :=
  mkResponse 400 [] (Some (JObj [("errors", JList [JObj [("message", JStr "bad")]]); ("data", JNull)])).

(** [queue.pop()] taking the first element inserted. *)
Definition pick_first : list Json -> nat := fun _ => O.

(** A transport answering the [n]-th POST with the [n]-th outcome. *)
Definition mock_net (outcomes : list PostOutcome) : Net :=
  fun n _ => nth n outcomes PException.

Definition empty_world : World := mkWorld 0 [] [] [].

(** ** Sample graphs *)

(** A two-node cycle: 1 -SEQUEL-> 2 -PREQUEL-> 1. *)
Definition anime (i : Z) (tag_names : list string) : Media :=
  mkMedia i None "romaji" "ANIME" "TV" tag_names.

Definition cyc_rel : Relations :=
  fun x => if x =? 1 then [mkEdge "SEQUEL" (anime 2 [])]
           else if x =? 2 then [mkEdge "PREQUEL" (anime 1 [])] else [].

(** 1 has a SIDE_STORY 2 and a Crossover-tagged SEQUEL 3; 2 and 3 have
    SEQUELs 4 and 5. *)
Definition pruned_rel : Relations :=
  fun x => if x =? 1 then [mkEdge "SIDE_STORY" (anime 2 []); mkEdge "SEQUEL" (anime 3 ["Crossover"])]
           else if x =? 2 then [mkEdge "SEQUEL" (anime 4 [])]
           else if x =? 3 then [mkEdge "SEQUEL" (anime 5 [])] else [].

(** ** Finite relation graphs *)

(** [U] lists every ID of a finite graph: it holds the root and the
    target of every edge out of its members. *)
Definition closed_under (rel : Relations) (U : list Z) : Prop :=
  forall x, In x U -> forall e, In e (rel x) -> In (media_id (node e)) U.

Definition max_degree (rel : Relations) (U : list Z) : nat :=
  list_max (map (fun x => List.length (rel x)) U).

Definition unvisited (U : list Z) (st : WState) : nat :=
  List.length (filter (fun u => negb (Z_mem u (wvisited st))) U).

(** Decreases with every step of the generator. *)
Definition walk_measure (rel : Relations) (U : list Z) (st : WState) : nat :=
  ((unvisited U st + List.length (wqueue st)) * S (max_degree rel U)
   + List.length (wpending st))%nat.


(** ** Predicates over responses and pages *)

(** The [Retry-After] header is absent or an integer. *)
Definition retry_after_ok (r : Response) : bool :=
  match header_get "Retry-After" (headers r) with
  | None => true
  | Some v => match parse_int v with Some _ => true | None => false end
  end.

(** The [asyncio.sleep] that follows a response, in ms: [Retry-After + 1]
    seconds, or 0.1 s without the header (0 for a header that is not an
    integer, where the call raises instead of sleeping). *)
Definition retry_sleep_ms (r : Response) : Z :=
  match header_get "Retry-After" (headers r) with
  | None => 100
  | Some v => match parse_int v with Some n => (n + 1) * 1000 | None => 0 end
  end.

(** The malformed page shapes of the claim: an empty object reached
    before [pageInfo], an object of several keys none of which is
    [pageInfo], or a [pageInfo]-bearing object whose key count is not 2,
    possibly under single-key envelopes. *)
Inductive bad_page_shape : Json -> Prop :=
| bps_empty : bad_page_shape (JObj [])
| bps_multi kvs : has_key "pageInfo" kvs = false -> (1 < List.length kvs)%nat ->
    bad_page_shape (JObj kvs)
| bps_final kvs : has_key "pageInfo" kvs = true -> List.length kvs <> 2%nat ->
    bad_page_shape (JObj kvs)
| bps_down k v : k <> "pageInfo" -> bad_page_shape v -> bad_page_shape (JObj [(k, v)]).

(** Number of pages of a source of [n] items at [MAX_PAGE_SIZE] per page
    that the driver requests. *)
Definition pages_requested (n : nat) : nat := Nat.max 1 ((n + 49) / 50).

(** The invariant of a walk inside a node set [U]. *)
Definition walk_bounded (rel : Relations) (U : list Z) (st : WState) : Prop :=
  incl (wvisited st) U /\ incl (wqueue st) U /\
  (forall e, In e (wpending st) -> In (media_id (node e)) U) /\
  (List.length (wpending st) <= max_degree rel U)%nat.

Definition resp_429 : Response := mkResponse 429 [] None.
Definition resp_404 : Response :=
  mkResponse 404 [] (Some (JObj [("errors", JList [JStr "Not Found."]); ("data", JNull)])).
Definition resp_page_empty : Response := ok_response (JObj [("Page", JObj [])]).

(** A page object under single-key envelopes [ks], outermost first. *)
Fixpoint envelope (ks : list string) (d : Json) : Json :=
  match ks with
  | [] => d
  | k :: r => JObj [(k, envelope r d)]
  end.

(** The anime season after a given one. *)
Definition following_season (s : string * Z) : string * Z :=
  let (name, year) := s in
  if String.eqb name "WINTER" then ("SPRING", year)
  else if String.eqb name "SPRING" then ("SUMMER", year)
  else if String.eqb name "SUMMER" then ("FALL", year)
  else ("WINTER", year + 1).

(** A request of the pagination driver for the caller's [variables]: some
    page [i >= 1], [perPage] 50, and every other variable as given. *)
Definition page_req_ok (query : string) (variables : list (string * Json)) (req : Json) : Prop :=
  exists i vs, 1 <= i /\ req = page_request query vs /\
    obj_find "page" vs = Some (JNum i) /\
    obj_find "perPage" vs = Some (JNum MAX_PAGE_SIZE) /\
    (forall k, k <> "page" -> k <> "perPage" -> obj_find k vs = obj_find k variables).

(** A [FuzzyDate] as AniList returns it. *)
Definition fuzzy_date_obj (year month day : Json) : Json :=
  JObj [("year", year); ("month", month); ("day", day)].

(** * Properties *)

(** ** Sets of IDs *)

Lemma Z_mem_In x s : Z_mem x s = true <-> In x s.
Proof.
  unfold Z_mem. rewrite existsb_exists. split.
  - intros [y [Hy Heq]]. apply Z.eqb_eq in Heq. subst. exact Hy.
  - intros H. exists x. split; [exact H | apply Z.eqb_refl].
Qed.

Lemma Z_mem_false x s : Z_mem x s = false <-> ~ In x s.
Proof.
  rewrite <- Z_mem_In. destruct (Z_mem x s); split; congruence.
Qed.

Lemma set_add_In x y s : In y (set_add x s) <-> In y s \/ y = x.
Proof.
  unfold set_add. destruct (Z_mem x s) eqn:E.
  - apply Z_mem_In in E. split; [tauto|]. intros [H|H]; [exact H|subst; exact E].
  - rewrite in_app_iff. simpl. split; intros [H|H]; auto.
    + destruct H as [H|[]]. auto.
Qed.

Lemma set_add_length x s : (List.length (set_add x s) <= S (List.length s))%nat.
Proof.
  unfold set_add. destruct (Z_mem x s); [lia|]. rewrite length_app. simpl. lia.
Qed.

Lemma remove_at_In i l y : In y (remove_at i l) -> In y l.
Proof.
  revert i. induction l as [|a l IH]; intros [|i]; simpl; intros H; auto.
  destruct H as [H|H]; eauto.
Qed.

Lemma remove_at_length i l : (i < List.length l)%nat ->
  List.length (remove_at i l) = pred (List.length l).
Proof.
  revert i. induction l as [|a l IH]; intros [|i] H; simpl in *; try lia.
  rewrite IH by lia. destruct l; simpl in *; lia.
Qed.

Lemma set_pop_spec c s x s' : set_pop c s = Some (x, s') ->
  In x s /\ incl s' s /\ S (List.length s') = List.length s.
Proof.
  unfold set_pop. destruct s as [|a r] eqn:Es; [discriminate|].
  rewrite <- Es. intros H. injection H as <- <-.
  assert (Hlt : (Nat.modulo c (List.length s) < List.length s)%nat)
    by (apply Nat.mod_upper_bound; subst; simpl; lia).
  split; [apply nth_In; exact Hlt|]. split.
  - intros y Hy. eapply remove_at_In. exact Hy.
  - rewrite remove_at_length by exact Hlt. subst. simpl. lia.
Qed.

(** ** One step of the walker *)

Lemma walk_step_cases rel root c st y st' :
  walk_step rel root c st = Some (y, st') ->
  (exists e rest, wpending st = e :: rest /\ ~ In (media_id (node e)) (wvisited st) /\
     y = (if negb (media_id (node e) =? root) then Some (node e) else None) /\
     st' = mkWState (if should_expand e then set_add (media_id (node e)) (wqueue st) else wqueue st)
                    (wvisited st ++ [media_id (node e)]) rest) \/
  (exists e rest, wpending st = e :: rest /\ In (media_id (node e)) (wvisited st) /\
     y = None /\ st' = mkWState (wqueue st) (wvisited st) rest) \/
  (exists x q', wpending st = [] /\ set_pop c (wqueue st) = Some (x, q') /\
     y = None /\ st' = mkWState q' (wvisited st) (rel x)).
Proof.
  unfold walk_step. destruct (wpending st) as [|e rest] eqn:Ep.
  - destruct (set_pop c (wqueue st)) as [[x q']|] eqn:Eq; [|discriminate].
    intros H. injection H as <- <-. right. right. eauto 7.
  - destruct (Z_mem (media_id (node e)) (wvisited st)) eqn:Em; simpl.
    + intros H. injection H as <- <-. right. left. apply Z_mem_In in Em. eauto 7.
    + intros H. injection H as <- <-. left. apply Z_mem_false in Em.
      exists e, rest. repeat split; auto.
      unfold set_add. rewrite (proj2 (Z_mem_false _ _) Em). reflexivity.
Qed.

(** The local facts of one step: [related_show_ids] only grows, an ID
    already in it is not added to [queue], and a yielded node is new and
    not the root. *)
Lemma walk_step_local rel root c st y st' :
  walk_step rel root c st = Some (y, st') ->
  incl (wvisited st) (wvisited st') /\
  (forall x, In x (wvisited st) -> In x (wqueue st') -> In x (wqueue st)) /\
  (forall m, y = Some m ->
     ~ In (media_id m) (wvisited st) /\ media_id m <> root /\ In (media_id m) (wvisited st')).
Proof.
  intros H. apply walk_step_cases in H as
    [(e & rest & Ep & Hn & Hy & ->) | [(e & rest & Ep & Hn & Hy & ->) | (x & q' & Ep & Hp & Hy & ->)]];
    simpl.
  - split; [intros a Ha; apply in_or_app; auto|]. split.
    + intros a Ha Hq. destruct (should_expand e); [|exact Hq].
      apply set_add_In in Hq as [Hq|Hq]; [exact Hq|subst; contradiction].
    + intros m ->. destruct (media_id (node e) =? root) eqn:Er; simpl in Hy; [discriminate|].
      injection Hy as Hm. subst m. apply Z.eqb_neq in Er. repeat split; auto.
      apply in_or_app. simpl. auto.
  - split; [intros a Ha; exact Ha|]. split; [auto|]. intros m ->. discriminate.
  - split; [intros a Ha; exact Ha|]. split.
    + intros a _ Ha. apply set_pop_spec in Hp as (_ & Hincl & _). apply Hincl. exact Ha.
    + intros m ->. discriminate.
Qed.

Lemma walk_step_queue_visited rel root c st y st' :
  walk_step rel root c st = Some (y, st') ->
  incl (wqueue st) (wvisited st) -> incl (wqueue st') (wvisited st').
Proof.
  intros H Hq. apply walk_step_cases in H as
    [(e & rest & Ep & Hn & Hy & ->) | [(e & rest & Ep & Hn & Hy & ->) | (x & q' & Ep & Hp & Hy & ->)]];
    simpl.
  - intros a Ha. apply in_or_app. destruct (should_expand e).
    + apply set_add_In in Ha as [Ha|Ha]; [left; auto|right; simpl; auto].
    + left. auto.
  - exact Hq.
  - apply set_pop_spec in Hp as (_ & Hincl & _). intros a Ha. auto.
Qed.

(** The invariant of one invocation: the root stays visited, every queued
    ID is visited, and the yields are distinct visited non-root IDs. *)
Lemma walk_trace_inv rel root s0 ys st :
  walk_trace rel root s0 ys st -> s0 = walk_init root ->
  In root (wvisited st) /\ incl (wqueue st) (wvisited st) /\
  NoDup (map media_id ys) /\ incl (map media_id ys) (wvisited st) /\
  ~ In root (map media_id ys).
Proof.
  induction 1 as [st|st ys st1 c y st2 Htr IH Hs]; intros ->.
  - simpl. repeat split.
    + left. reflexivity.
    + intros a Ha. exact Ha.
    + constructor.
    + intros a [].
    + intros [].
  - destruct (IH eq_refl) as (Hroot & Hqv & Hnd & Hyv & Hnr).
    pose proof (walk_step_local _ _ _ _ _ _ Hs) as (Hgrow & _ & Hy).
    pose proof (walk_step_queue_visited _ _ _ _ _ _ Hs Hqv) as Hqv'.
    destruct y as [m|]; simpl.
    + destruct (Hy m eq_refl) as (Hnew & Hne & Hin).
      rewrite map_app. simpl. repeat split; auto.
      * apply NoDup_app; [exact Hnd| constructor; [intros []|constructor] |].
        intros a Ha [Ham|[]]. subst a. apply Hnew. apply Hyv. exact Ha.
      * intros a Ha. apply in_app_or in Ha as [Ha|[Ha|[]]]; [apply Hgrow; auto | subst; exact Hin].
      * intros Ha. apply in_app_or in Ha as [Ha|[Ha|[]]]; [contradiction | congruence].
    + rewrite app_nil_r. repeat split; auto.
      intros a Ha. apply Hgrow. auto.
Qed.

Lemma wt_step' rel root st ys st1 c y st2 ys' :
  walk_trace rel root st ys st1 ->
  walk_step rel root c st1 = Some (y, st2) ->
  ys' = ys ++ opt_list y ->
  walk_trace rel root st ys' st2.
Proof. intros H1 H2 ->. eapply wt_step; eauto. Qed.


Example cyc_walk_yields :
  get_related_media cyc_rel 1 (fun _ => O) 10 = Some [anime 2 []].
Proof. reflexivity. Qed.

Lemma cyc_trace :
  walk_trace cyc_rel 1 (walk_init 1) [anime 2 []] (mkWState [] [1; 2] []).
Proof.
  apply (wt_step' _ _ _ [anime 2 []] (mkWState [] [1; 2] [mkEdge "PREQUEL" (anime 1 [])]) O None);
    [| reflexivity | reflexivity].
  apply (wt_step' _ _ _ [anime 2 []] (mkWState [2] [1; 2] []) O None);
    [| reflexivity | reflexivity].
  apply (wt_step' _ _ _ [] (mkWState [] [1] [mkEdge "SEQUEL" (anime 2 [])]) O (Some (anime 2 [])));
    [| reflexivity | reflexivity].
  apply (wt_step' _ _ _ [] (walk_init 1) O None); [| reflexivity | reflexivity].
  apply wt_refl.
Qed.

(** C1: in every run of one invocation of [get_related_media], on any
    relation graph (cycles included), the yielded IDs are pairwise distinct
    and never the root's, and every further step only grows
    [related_show_ids], never puts an already visited ID into [queue], and
    never yields an ID already yielded, nor the root. *)
Theorem get_related_media_visited_invariant rel root ys st :
  walk_trace rel root (walk_init root) ys st ->
  NoDup (map media_id ys) /\ ~ In root (map media_id ys) /\
  (forall c y st', walk_step rel root c st = Some (y, st') ->
     incl (wvisited st) (wvisited st') /\
     (forall x, In x (wvisited st) -> In x (wqueue st') -> In x (wqueue st)) /\
     (forall m, y = Some m -> ~ In (media_id m) (map media_id ys) /\ media_id m <> root)).
Proof.
  intros H. destruct (walk_trace_inv _ _ _ _ _ H eq_refl) as (_ & _ & Hnd & Hyv & Hnr).
  split; [exact Hnd|]. split; [exact Hnr|].
  intros c y st' Hs.
  destruct (walk_step_local _ _ _ _ _ _ Hs) as (Hgrow & Hq & Hy).
  split; [exact Hgrow|]. split; [exact Hq|].
  intros m Hm. destruct (Hy m Hm) as (Hnew & Hne & _). split; [|exact Hne].
  intros Hin. apply Hnew. apply Hyv. exact Hin.
Qed.

Lemma get_related_media_visited_invariant_witness :
  walk_trace cyc_rel 1 (walk_init 1) [anime 2 []] (mkWState [] [1; 2] []) /\
  (NoDup (map media_id [anime 2 []]) /\ ~ In 1 (map media_id [anime 2 []]) /\
  (forall c y st', walk_step cyc_rel 1 c (mkWState [] [1; 2] []) = Some (y, st') ->
     incl (wvisited (mkWState [] [1; 2] [])) (wvisited st') /\
     (forall x, In x (wvisited (mkWState [] [1; 2] [])) -> In x (wqueue st') ->
                In x (wqueue (mkWState [] [1; 2] []))) /\
     (forall m, y = Some m -> ~ In (media_id m) (map media_id [anime 2 []]) /\ media_id m <> 1))).
Proof.
  split; [exact cyc_trace|].
  exact (get_related_media_visited_invariant cyc_rel 1 _ _ cyc_trace).
Defined.


Example pruned_walk_yields :
  get_related_media pruned_rel 1 (fun _ => O) 20 = Some [anime 2 []; anime 3 ["Crossover"]].
Proof. reflexivity. Qed.

Lemma pruned_trace :
  walk_trace pruned_rel 1 (walk_init 1) []
    (mkWState [] [1] [mkEdge "SIDE_STORY" (anime 2 []); mkEdge "SEQUEL" (anime 3 ["Crossover"])]).
Proof.
  apply (wt_step' _ _ _ [] (walk_init 1) O None); [apply wt_refl | reflexivity | reflexivity].
Qed.

(** C3: in any run of one invocation, when the next edge's node is not yet
    visited, the step yields the node whatever its relation type or tags,
    marks it visited, and puts it into [queue] exactly when its relation
    type is SEQUEL, PREQUEL, SOURCE or ALTERNATIVE and none of its tags is
    named "Crossover". *)
Theorem get_related_media_expand_filter rel root ys st e rest c :
  walk_trace rel root (walk_init root) ys st ->
  wpending st = e :: rest ->
  ~ In (media_id (node e)) (wvisited st) ->
  exists st', walk_step rel root c st = Some (Some (node e), st') /\
    In (media_id (node e)) (wvisited st') /\
    (In (media_id (node e)) (wqueue st') <->
     (existsb (String.eqb (relationType e)) chain_types = true /\
      existsb (fun name => String.eqb name "Crossover") (tags (node e)) = false)).
Proof.
  intros Htr Ep Hn.
  destruct (walk_trace_inv _ _ _ _ _ Htr eq_refl) as (Hroot & Hqv & _).
  assert (Hne : media_id (node e) <> root) by (intros Heq; apply Hn; rewrite Heq; exact Hroot).
  unfold walk_step, should_expand. rewrite Ep. rewrite (proj2 (Z_mem_false _ _) Hn).
  rewrite (proj2 (Z.eqb_neq _ _) Hne).
  destruct (existsb (String.eqb (relationType e)) chain_types);
  destruct (existsb (fun name => String.eqb name "Crossover") (tags (node e))); simpl;
    (eexists; split; [reflexivity|]); simpl;
    (split; [apply set_add_In; right; reflexivity|]);
    try (split; [intros Hq; exfalso; apply Hn; apply Hqv; exact Hq | intros [? ?]; discriminate]).
  split; [intros _; split; reflexivity|intros _; apply set_add_In; right; reflexivity].
Qed.

Lemma get_related_media_expand_filter_witness :
  walk_trace pruned_rel 1 (walk_init 1) []
    (mkWState [] [1] [mkEdge "SIDE_STORY" (anime 2 []); mkEdge "SEQUEL" (anime 3 ["Crossover"])]) /\
  wpending (mkWState [] [1] [mkEdge "SIDE_STORY" (anime 2 []); mkEdge "SEQUEL" (anime 3 ["Crossover"])])
    = mkEdge "SIDE_STORY" (anime 2 []) :: [mkEdge "SEQUEL" (anime 3 ["Crossover"])] /\
  ~ In (media_id (node (mkEdge "SIDE_STORY" (anime 2 []))))
       (wvisited (mkWState [] [1] [mkEdge "SIDE_STORY" (anime 2 []); mkEdge "SEQUEL" (anime 3 ["Crossover"])])) /\
  exists st', walk_step pruned_rel 1 O
      (mkWState [] [1] [mkEdge "SIDE_STORY" (anime 2 []); mkEdge "SEQUEL" (anime 3 ["Crossover"])])
      = Some (Some (anime 2 []), st') /\
    In 2 (wvisited st') /\
    (In 2 (wqueue st') <->
     (existsb (String.eqb "SIDE_STORY") chain_types = true /\
      existsb (fun name => String.eqb name "Crossover") [] = false)).
Proof.
  assert (Hn : ~ In 2 [1]) by (simpl; lia).
  split; [exact pruned_trace|]. split; [reflexivity|]. split; [exact Hn|].
  exact (get_related_media_expand_filter pruned_rel 1 [] _ (mkEdge "SIDE_STORY" (anime 2 [])) _ O
           pruned_trace eq_refl Hn).
Defined.

(** ** Termination of one invocation on a finite graph *)

Lemma filter_length_le (f g : Z -> bool) (U : list Z) :
  (forall u, g u = true -> f u = true) ->
  (List.length (filter g U) <= List.length (filter f U))%nat.
Proof.
  intros H. induction U as [|u U IH]; simpl; [lia|].
  destruct (g u) eqn:Eg.
  - rewrite (H u Eg). simpl. lia.
  - destruct (f u); simpl; lia.
Qed.

Lemma filter_length_lt (f g : Z -> bool) (U : list Z) x :
  (forall u, g u = true -> f u = true) -> In x U -> f x = true -> g x = false ->
  (List.length (filter g U) < List.length (filter f U))%nat.
Proof.
  intros H Hx Hf Hg. induction U as [|u U IH]; simpl in *; [contradiction|].
  destruct Hx as [<-|Hx].
  - rewrite Hf, Hg. simpl. pose proof (filter_length_le f g U H). lia.
  - specialize (IH Hx). destruct (g u) eqn:Eg.
    + rewrite (H u Eg). simpl. lia.
    + destruct (f u); simpl; lia.
Qed.

Lemma max_degree_bound rel U x :
  In x U -> (List.length (rel x) <= max_degree rel U)%nat.
Proof.
  intros Hx. unfold max_degree.
  pose proof (proj1 (list_max_le (map (fun x => List.length (rel x)) U)
                    (list_max (map (fun x => List.length (rel x)) U))) (le_n _)) as HF.
  rewrite Forall_forall in HF. apply HF. apply in_map_iff. exists x. auto.
Qed.

Lemma walk_step_decreases rel root U c st y st' :
  closed_under rel U -> walk_bounded rel U st ->
  walk_step rel root c st = Some (y, st') ->
  walk_bounded rel U st' /\ (walk_measure rel U st' < walk_measure rel U st)%nat.
Proof.
  intros Hcl (Hv & Hq & Hp & Hl) Hs.
  unfold walk_measure, unvisited.
  apply walk_step_cases in Hs as
    [(e & rest & Ep & Hn & Hy & ->) | [(e & rest & Ep & Hn & Hy & ->) | (x & q' & Ep & Hpop & Hy & ->)]];
    simpl; rewrite Ep in *; simpl in *.
  - assert (HeU : In (media_id (node e)) U) by (apply Hp; left; reflexivity).
    split.
    + repeat split.
      * intros a Ha. apply in_app_or in Ha as [Ha|[Ha|[]]]; [auto|subst; exact HeU].
      * intros a Ha. destruct (should_expand e); [|auto].
        apply set_add_In in Ha as [Ha|Ha]; [auto|subst; exact HeU].
      * intros e' He'. apply Hp. right. exact He'.
      * simpl. lia.
    + assert (Hlt : (List.length (filter (fun u => negb (Z_mem u (wvisited st ++ [media_id (node e)]))) U)
                     < List.length (filter (fun u => negb (Z_mem u (wvisited st))) U))%nat).
      { apply (filter_length_lt _ _ U (media_id (node e))).
        - intros u Hu. apply negb_true_iff in Hu. apply negb_true_iff. apply Z_mem_false.
          apply Z_mem_false in Hu. intros Hin. apply Hu. apply in_or_app. left. exact Hin.
        - exact HeU.
        - apply negb_true_iff. apply Z_mem_false. exact Hn.
        - apply negb_false_iff. apply Z_mem_In. apply in_or_app. right. left. reflexivity. }
      assert (Hql : (List.length (if should_expand e then set_add (media_id (node e)) (wqueue st)
                                  else wqueue st) <= S (List.length (wqueue st)))%nat)
        by (destruct (should_expand e); [apply set_add_length|lia]).
      nia.
  - split; [|lia]. repeat split; auto.
    all: try (intros e' He'; apply Hp; right; exact He').
    all: simpl; lia.
  - apply set_pop_spec in Hpop as (HxQ & Hincl & Hlen).
    assert (HxU : In x U) by (apply Hq; exact HxQ).
    pose proof (max_degree_bound rel U x HxU) as Hdeg.
    split.
    + repeat split; auto.
      * intros a Ha. apply Hq. apply Hincl. exact Ha.
      * intros e' He'. exact (Hcl x HxU e' He').
    + rewrite <- Hlen. nia.
Qed.

Lemma walk_run_terminates rel root U sched :
  closed_under rel U ->
  forall n k st, walk_bounded rel U st -> (walk_measure rel U st < n)%nat ->
  exists ys, walk_run rel root sched k n st = Some ys.
Proof.
  intros Hcl n. induction n as [|n IH]; intros k st Hb Hm; [lia|].
  simpl. destruct (walk_step rel root (sched k) st) as [[y st']|] eqn:Hs.
  - destruct (walk_step_decreases _ _ _ _ _ _ _ Hcl Hb Hs) as (Hb' & Hlt).
    destruct (IH (S k) st' Hb' ltac:(lia)) as [ys Hys].
    rewrite Hys. eexists. reflexivity.
  - eexists. reflexivity.
Qed.

Lemma walk_trace_prepend rel root st c y st1 ys st2 :
  walk_step rel root c st = Some (y, st1) ->
  walk_trace rel root st1 ys st2 ->
  walk_trace rel root st (opt_list y ++ ys) st2.
Proof.
  intros Hs Htr. induction Htr as [st1|st1 ys st1' c' y' st2 Htr IH Hs'].
  - apply (wt_step' _ _ _ [] st c y); [apply wt_refl|exact Hs|].
    rewrite app_nil_r. reflexivity.
  - apply (wt_step' _ _ _ (opt_list y ++ ys) st1' c' y'); [exact (IH Hs)|exact Hs'|].
    rewrite app_assoc. reflexivity.
Qed.

Lemma walk_run_trace rel root sched n : forall k st ys,
  walk_run rel root sched k n st = Some ys ->
  exists st', walk_trace rel root st ys st'.
Proof.
  induction n as [|n IH]; intros k st ys H; simpl in H; [discriminate|].
  destruct (walk_step rel root (sched k) st) as [[y st1]|] eqn:Hs.
  - destruct (walk_run rel root sched (S k) n st1) as [ys1|] eqn:Hr; [|discriminate].
    injection H as <-. destruct (IH _ _ _ Hr) as [st2 Htr].
    exists st2. exact (walk_trace_prepend _ _ _ _ _ _ _ _ Hs Htr).
  - injection H as <-. exists st. apply wt_refl.
Qed.

Lemma walk_trace_bounded rel root U st ys st' :
  closed_under rel U -> walk_trace rel root st ys st' ->
  walk_bounded rel U st -> walk_bounded rel U st'.
Proof.
  intros Hcl Htr. induction Htr as [st|st ys st1 c y st2 Htr IH Hs]; intros Hb; [exact Hb|].
  exact (proj1 (walk_step_decreases _ _ _ _ _ _ _ Hcl (IH Hb) Hs)).
Qed.

(** C7: on a finite relation graph (every ID reachable lies in a finite
    list [U] closed under the relations), one invocation of
    [get_related_media], which starts from the fresh state
    [queue = {root}], [related_show_ids = {root}], runs to exhaustion
    whatever each [pop] picks, within a step budget computed from the
    graph, and yields at most [|U|] nodes. *)
Theorem get_related_media_terminates rel root U sched :
  In root U -> closed_under rel U ->
  walk_init root = mkWState [root] [root] [] /\
  exists ys, get_related_media rel root sched (S (walk_measure rel U (walk_init root))) = Some ys /\
             (List.length ys <= List.length U)%nat.
Proof.
  intros Hroot Hcl. split; [reflexivity|].
  assert (Hb : walk_bounded rel U (walk_init root)).
  { unfold walk_bounded. simpl. repeat split.
    - intros a [<-|[]]. exact Hroot.
    - intros a [<-|[]]. exact Hroot.
    - intros e [].
    - lia. }
  destruct (walk_run_terminates rel root U sched Hcl _ 0 _ Hb (Nat.lt_succ_diag_r _)) as [ys Hys].
  exists ys. split; [exact Hys|].
  destruct (walk_run_trace _ _ _ _ _ _ _ Hys) as [st' Htr].
  destruct (walk_trace_inv _ _ _ _ _ Htr eq_refl) as (_ & _ & Hnd & Hyv & _).
  destruct (walk_trace_bounded _ _ _ _ _ _ Hcl Htr Hb) as (HvU & _).
  rewrite <- (length_map media_id ys).
  apply NoDup_incl_length; [exact Hnd|].
  intros a Ha. apply HvU. apply Hyv. exact Ha.
Qed.

Lemma cyc_closed : closed_under cyc_rel [1; 2].
Proof.
  intros x Hx e He. simpl in Hx.
  destruct Hx as [<-|[<-|[]]]; simpl in He; destruct He as [<-|[]]; simpl; auto.
Qed.

Lemma get_related_media_terminates_witness :
  In 1 [1; 2] /\ closed_under cyc_rel [1; 2] /\
  (walk_init 1 = mkWState [1] [1] [] /\
   exists ys, get_related_media cyc_rel 1 (fun _ => O)
                (S (walk_measure cyc_rel [1; 2] (walk_init 1))) = Some ys /\
              (List.length ys <= List.length [1; 2])%nat).
Proof.
  assert (Hr : In 1 [1; 2]) by (left; reflexivity).
  split; [exact Hr|]. split; [exact cyc_closed|].
  exact (get_related_media_terminates cyc_rel 1 [1; 2] (fun _ => O) Hr cyc_closed).
Defined.

(** ** The matcher *)

Lemma async_any_first_true bs rest :
  (forall b, In b bs -> b = false) ->
  async_any (bs ++ true :: rest) = (true, S (List.length bs)).
Proof.
  induction bs as [|b bs IH]; intros H; simpl; [reflexivity|].
  rewrite (H b (or_introl eq_refl)).
  rewrite IH by (intros b' Hb'; apply H; right; exact Hb'). reflexivity.
Qed.

Lemma async_any_all_false bs :
  (forall b, In b bs -> b = false) -> async_any bs = (false, List.length bs).
Proof.
  induction bs as [|b bs IH]; intros H; simpl; [reflexivity|].
  rewrite (H b (or_introl eq_refl)).
  rewrite IH by (intros b' Hb'; apply H; right; exact Hb'). reflexivity.
Qed.

(** C4: the matcher stops at the first yielded node whose ID is in the
    user's set, having pulled exactly the yields up to and including it,
    and answers false only after pulling every yield of the walk. *)
Theorem has_upcoming_relation_short_circuit user_media_ids ys :
  (forall pre m post, ys = pre ++ m :: post ->
     (forall x, In x pre -> ~ In (media_id x) user_media_ids) ->
     In (media_id m) user_media_ids ->
     has_upcoming_relation user_media_ids ys = (true, S (List.length pre))) /\
  ((forall x, In x ys -> ~ In (media_id x) user_media_ids) ->
     has_upcoming_relation user_media_ids ys = (false, List.length ys)).
Proof.
  unfold has_upcoming_relation. split.
  - intros pre m post -> Hpre Hm.
    rewrite map_app. simpl. rewrite (proj2 (Z_mem_In _ _) Hm).
    rewrite async_any_first_true; [rewrite length_map; reflexivity|].
    intros b Hb. apply in_map_iff in Hb as [x [<- Hx]].
    apply Z_mem_false. exact (Hpre x Hx).
  - intros Hall. rewrite async_any_all_false; [rewrite length_map; reflexivity|].
    intros b Hb. apply in_map_iff in Hb as [x [<- Hx]].
    apply Z_mem_false. exact (Hall x Hx).
Qed.

(** The example of the spec: user set [{42}], yields [1, 42, 999]. *)
Lemma has_upcoming_relation_short_circuit_witness :
  [anime 1 []; anime 42 []; anime 999 []] = [anime 1 []] ++ anime 42 [] :: [anime 999 []] /\
  (forall x, In x [anime 1 []] -> ~ In (media_id x) [42]) /\
  In (media_id (anime 42 [])) [42] /\
  has_upcoming_relation [42] [anime 1 []; anime 42 []; anime 999 []] = (true, 2%nat).
Proof.
  assert (Hpre : forall x, In x [anime 1 []] -> ~ In (media_id x) [42]).
  { intros x [<-|[]]. simpl. lia. }
  assert (Hm : In (media_id (anime 42 [])) [42]) by (left; reflexivity).
  split; [reflexivity|]. split; [exact Hpre|]. split; [exact Hm|].
  exact (proj1 (has_upcoming_relation_short_circuit [42] [anime 1 []; anime 42 []; anime 999 []])
           [anime 1 []] (anime 42 []) [anime 999 []] eq_refl Hpre Hm).
Defined.

(** ** [main] *)

(** C8: the [--planning] and [--completed] flags play no part in [main]:
    two runs for the same user on the same API answers (and the same
    date and [queue.pop()] choices) print the same shows and leave the
    same world (requests, sleeps, output).  [user_media_ids] is the union
    of the media IDs of the user's COMPLETED, PLANNING and CURRENT lists,
    fetched in that order, and the seasons are searched against that
    union. *)
Theorem main_ignores_flags net fuel pick cur_year cur_month args1 args2 w :
  username args1 = username args2 ->
  main net fuel pick cur_year cur_month args1 w = main net fuel pick cur_year cur_month args2 w /\
  main_user_media_ids net fuel args1 w = main_user_media_ids net fuel args2 w /\
  main_user_media_ids net fuel args1 w =
    (let! user_id := get_user_id_by_name net fuel (username args1) in
     let! completed_ids := status_media_ids net fuel user_id "COMPLETED" in
     let! planning_ids := status_media_ids net fuel user_id "PLANNING" in
     let! current_ids := status_media_ids net fuel user_id "CURRENT" in
     ret (completed_ids ++ planning_ids ++ current_ids)) w /\
  main net fuel pick cur_year cur_month args1 w =
    (let! user_id := get_user_id_by_name net fuel (username args1) in
     let! completed_ids := status_media_ids net fuel user_id "COMPLETED" in
     let! planning_ids := status_media_ids net fuel user_id "PLANNING" in
     let! current_ids := status_media_ids net fuel user_id "CURRENT" in
     iter_M (search_season net fuel pick cur_year cur_month
               (completed_ids ++ planning_ids ++ current_ids)) [0; 1; 2; 3];;
     report_total) w.
Proof.
  intros Hname. split; [|split; [|split]].
  - unfold main, main_user_media_ids. rewrite Hname. reflexivity.
  - unfold main_user_media_ids. rewrite Hname. reflexivity.
  - unfold main_user_media_ids, statuses, map_M, bind, ret.
    destruct (get_user_id_by_name net fuel (username args1) w) as [[user_id|e] w1]; [|reflexivity].
    destruct (status_media_ids net fuel user_id "COMPLETED" w1) as [[s1|e] w2]; [|reflexivity].
    destruct (status_media_ids net fuel user_id "PLANNING" w2) as [[s2|e] w3]; [|reflexivity].
    destruct (status_media_ids net fuel user_id "CURRENT" w3) as [[s3|e] w4]; [|reflexivity].
    simpl. rewrite app_nil_r. reflexivity.
  - unfold main, main_user_media_ids, statuses, map_M, bind, ret.
    destruct (get_user_id_by_name net fuel (username args1) w) as [[user_id|e] w1]; [|reflexivity].
    destruct (status_media_ids net fuel user_id "COMPLETED" w1) as [[s1|e] w2]; [|reflexivity].
    destruct (status_media_ids net fuel user_id "PLANNING" w2) as [[s2|e] w3]; [|reflexivity].
    destruct (status_media_ids net fuel user_id "CURRENT" w3) as [[s3|e] w4]; [|reflexivity].
    cbn [List.concat map snd]. rewrite app_nil_r. reflexivity.
Qed.

(** On the sample AniList, FALL 2026 reports the shows 10 (a SEQUEL of
    the COMPLETED 1) and 11 (whose SEQUEL 12 has the CURRENT 3 as a
    SIDE_STORY), by their English title or else their romaji one. *)
Lemma main_ignores_flags_witness :
  username (mkArgs "alice" true false) = username (mkArgs "alice" false true) /\
  (  main demo_net 20 pick_first 2026 10 (mkArgs "alice" true false) empty_world = main demo_net 20 pick_first 2026 10 (mkArgs "alice" false true) empty_world /\
  main_user_media_ids demo_net 20 (mkArgs "alice" true false) empty_world = main_user_media_ids demo_net 20 (mkArgs "alice" false true) empty_world /\
  main_user_media_ids demo_net 20 (mkArgs "alice" true false) empty_world =
    (let! user_id := get_user_id_by_name demo_net 20 (username (mkArgs "alice" true false)) in
     let! completed_ids := status_media_ids demo_net 20 user_id "COMPLETED" in
     let! planning_ids := status_media_ids demo_net 20 user_id "PLANNING" in
     let! current_ids := status_media_ids demo_net 20 user_id "CURRENT" in
     ret (completed_ids ++ planning_ids ++ current_ids)) empty_world /\
  main demo_net 20 pick_first 2026 10 (mkArgs "alice" true false) empty_world =
    (let! user_id := get_user_id_by_name demo_net 20 (username (mkArgs "alice" true false)) in
     let! completed_ids := status_media_ids demo_net 20 user_id "COMPLETED" in
     let! planning_ids := status_media_ids demo_net 20 user_id "PLANNING" in
     let! current_ids := status_media_ids demo_net 20 user_id "CURRENT" in
     iter_M (search_season demo_net 20 pick_first 2026 10
               (completed_ids ++ planning_ids ++ current_ids)) [0; 1; 2; 3];;
     report_total) empty_world) /\
  fst (main_user_media_ids demo_net 20 (mkArgs "alice" true false) empty_world) = inl [JNum 1; JNum 2; JNum 3] /\
  stdout (snd (main demo_net 20 pick_first 2026 10 (mkArgs "alice" true false) empty_world)) =
    [LSeason "FALL" 2026; LText rule40; LValue (JStr "Ten"); LValue (JStr "Juuichi");
     LText EmptyString; LSeason "WINTER" 2027; LText rule40;
     LText EmptyString; LSeason "SPRING" 2027; LText rule40;
     LText EmptyString; LSeason "SUMMER" 2027; LText rule40;
     LTotal 12].
Proof.
  split; [reflexivity|].
  split; [exact (main_ignores_flags demo_net 20 pick_first 2026 10 (mkArgs "alice" true false) (mkArgs "alice" false true) empty_world eq_refl)|].
  split; vm_compute; reflexivity.
Defined.

(** C10: the printed title of a matched show (its query returns [id] and
    [title { english romaji }], [english] possibly null) is its English
    title when that is a non-empty string, and its romaji title when the
    English title is null or empty. *)
Theorem title_to_print_fallback (id : Z) (english : option string) (romaji : string) :
  title_to_print (JObj [("id", JNum id);
                        ("title", JObj [("english", match english with
                                                    | Some s => JStr s
                                                    | None => JNull
                                                    end);
                                        ("romaji", JStr romaji)])]) =
  inl (match english with
       | Some s => if String.eqb s "" then JStr romaji else JStr s
       | None => JStr romaji
       end).
Proof.
  destruct english as [s|]; [|reflexivity].
  unfold title_to_print. simpl.
  destruct (String.eqb s "") eqn:E; simpl; reflexivity.
Qed.

(** ** The request transport *)

Lemma spr_loop_again net f verbose req resp0 w x :
  (resp0 = None \/ exists r0, resp0 = Some r0 /\ status_code r0 = 429) ->
  net (List.length (sent w)) req = PResp x -> retry_after_ok x = true ->
  exists w1, spr_loop net (S f) verbose req resp0 w = spr_loop net f verbose req (Some x) w1 /\
    sent w1 = sent w ++ [req] /\ total_queries w1 = total_queries w /\
    slept_ms w1 = slept_ms w ++ [retry_sleep_ms x].
Proof.
  intros Hagain Hnet Hra.
  assert (Hunf : spr_loop net (S f) verbose req resp0 w =
    (let! o := post net req in
     match o with
     | PJsException =>
         tell (LRetryMsg 61);; sleep 61000;; tell (LErase 61);; spr_loop net f verbose req resp0
     | PException => raise OtherException
     | PResp r =>
         (match header_get "Retry-After" (headers r) with
          | Some v =>
              match parse_int v with
              | None => raise ValueError
              | Some n =>
                  (if verbose then tell (LRetryMsg (n + 1)) else ret tt);;
                  sleep ((n + 1) * 1000);;
                  (if verbose then tell (LErase (n + 1)) else ret tt)
              end
          | None => sleep 100
          end);;
         spr_loop net f verbose req (Some r)
     end) w).
  { destruct Hagain as [->|(r0 & -> & H429)]; simpl; [reflexivity|].
    rewrite H429. reflexivity. }
  rewrite Hunf. unfold bind at 1, post. rewrite Hnet.
  unfold retry_after_ok in Hra. unfold retry_sleep_ms.
  destruct (header_get "Retry-After" (headers x)) as [v|].
  - destruct (parse_int v) as [n|]; [|discriminate].
    destruct verbose; simpl; eexists; (split; [reflexivity|]); repeat split; reflexivity.
  - simpl. eexists. split; [reflexivity|]. repeat split; reflexivity.
Qed.

Lemma spr_loop_done net f verbose req r w :
  status_code r <> 429 -> spr_loop net f verbose req (Some r) w = (inl r, w).
Proof.
  intros H. destruct f; simpl; rewrite (proj2 (Z.eqb_neq _ _) H); reflexivity.
Qed.



Lemma has_key_obj_find k kvs :
  has_key k kvs = match obj_find k kvs with Some _ => true | None => false end.
Proof.
  unfold has_key, obj_find. induction kvs as [|[k' v] kvs IH]; simpl; [reflexivity|].
  destruct (String.eqb k' k); simpl; auto.
Qed.




(** C9 (as amended): once the loop has returned the final response with a
    decoded JSON object body, [safe_post_request] counts the query and,
    for a status in 400..599, prints the body's [errors] value if it has
    one and raises the HTTP-status failure; for any other status it
    returns the body's [data] value unchanged, or raises [KeyError] when
    there is none. *)
Theorem safe_post_request_final_response net fuel verbose req w r w1 kvs :
  spr_loop net fuel verbose req None w = (inl r, w1) ->
  body r = Some (JObj kvs) ->
  safe_post_request net fuel verbose req w =
  if (400 <=? status_code r) && (status_code r <? 600) then
    (inr (HTTPError (status_code r)),
     mkWorld (total_queries w1 + 1) (sent w1) (slept_ms w1)
       (stdout w1 ++ match obj_find "errors" kvs with Some errs => [LValue errs] | None => [] end))
  else
    (match obj_find "data" kvs with Some data => inl data | None => inr KeyError end,
     mkWorld (total_queries w1 + 1) (sent w1) (slept_ms w1) (stdout w1)).
Proof.
  intros H Hb. unfold safe_post_request, bind. rewrite H.
  unfold count_query, response_json, lift, tell, raise, ret, response_ok. rewrite Hb.
  destruct ((400 <=? status_code r) && (status_code r <? 600)); simpl.
  - rewrite has_key_obj_find. unfold py_getitem.
    destruct (obj_find "errors" kvs); simpl; [reflexivity|].
    rewrite app_nil_r. reflexivity.
  - destruct (obj_find "data" kvs); reflexivity.
Qed.

Lemma safe_post_request_final_response_witness :
  spr_loop (mock_net [PResp resp_404]) 1 true JNull None empty_world
    = (inl resp_404, mkWorld 0 [JNull] [100] []) /\
  body resp_404 = Some (JObj [("errors", JList [JStr "Not Found."]); ("data", JNull)]) /\
  safe_post_request (mock_net [PResp resp_404]) 1 true JNull empty_world =
  if (400 <=? status_code resp_404) && (status_code resp_404 <? 600) then
    (inr (HTTPError (status_code resp_404)),
     mkWorld (total_queries (mkWorld 0 [JNull] [100] []) + 1) (sent (mkWorld 0 [JNull] [100] []))
       (slept_ms (mkWorld 0 [JNull] [100] []))
       (stdout (mkWorld 0 [JNull] [100] []) ++
        match obj_find "errors" [("errors", JList [JStr "Not Found."]); ("data", JNull)] with
        | Some errs => [LValue errs] | None => [] end))
  else
    (match obj_find "data" [("errors", JList [JStr "Not Found."]); ("data", JNull)] with
     | Some data => inl data | None => inr KeyError end,
     mkWorld (total_queries (mkWorld 0 [JNull] [100] []) + 1) (sent (mkWorld 0 [JNull] [100] []))
       (slept_ms (mkWorld 0 [JNull] [100] [])) (stdout (mkWorld 0 [JNull] [100] []))).
Proof.
  assert (H : spr_loop (mock_net [PResp resp_404]) 1 true JNull None empty_world
                = (inl resp_404, mkWorld 0 [JNull] [100] [])) by reflexivity.
  assert (Hb : body resp_404 = Some (JObj [("errors", JList [JStr "Not Found."]); ("data", JNull)]))
    by reflexivity.
  split; [exact H|]. split; [exact Hb|].
  exact (safe_post_request_final_response _ 1 true JNull empty_world _ _ _ H Hb).
Defined.

(** A 200 response whose body has [errors] but no [data]: the call fails
    (with [KeyError]) although the status is not an error, and the errors
    are not printed. *)
Lemma safe_post_request_fails_on_success_status :
  let res := safe_post_request
               (mock_net [PResp (mkResponse 200 [] (Some (JObj [("errors", JList [JStr "boom"])])))])
               1 true JNull empty_world in
  fst res = inr KeyError /\ stdout (snd res) = [] /\
  ((400 <=? 200) && (200 <? 600)) = false.
Proof. split; [reflexivity|]. split; reflexivity. Qed.

(** ** The pagination driver *)

Lemma process_page_bad_shape d :
  bad_page_shape d -> exists msg, process_page d = inr (AssertionError msg).
Proof.
  induction 1 as [|kvs Hk Hlen|kvs Hk Hlen|k v Hk Hbad IH].
  - eexists. reflexivity.
  - unfold process_page, unwrap. rewrite Hk.
    destruct kvs as [|kv1 [|kv2 kvs]]; simpl in Hlen; try lia.
    destruct kv1. eexists. reflexivity.
  - unfold process_page. simpl. rewrite Hk. simpl.
    destruct (Nat.eqb (List.length kvs) 2) eqn:E; [apply Nat.eqb_eq in E; contradiction|].
    eexists. reflexivity.
  - destruct IH as [msg IH]. exists msg.
    unfold process_page in *. simpl.
    destruct (String.eqb k "pageInfo") eqn:E; [apply String.eqb_eq in E; contradiction|].
    simpl. exact IH.
Qed.

(** C6: when a page's data reaches an empty object before [pageInfo], an
    object of several keys without [pageInfo], or a [pageInfo]-bearing
    object without exactly two keys, [depaginated_request] fails on that
    page with an [AssertionError]: no list is returned, and the world is
    left as the page's request left it (no further request). *)
Theorem depaginated_request_bad_shape_fails net fuel verbose query pv page_num out_list w d w1 :
  safe_post_request net (S fuel) verbose
    (page_request query (dict_set "page" (JNum page_num) pv)) w = (inl d, w1) ->
  bad_page_shape d ->
  exists msg, depag_loop net (S fuel) verbose query pv page_num out_list w
              = (inr (AssertionError msg), w1).
Proof.
  intros Hreq Hbad. destruct (process_page_bad_shape d Hbad) as [msg Hp].
  exists msg. simpl. unfold bind. rewrite Hreq. unfold lift. rewrite Hp. reflexivity.
Qed.

Lemma depaginated_request_bad_shape_fails_witness :
  safe_post_request (mock_net [PResp resp_page_empty]) 1 true
    (page_request query_user_media (dict_set "page" (JNum 1) [("perPage", JNum 50)])) empty_world
    = (inl (JObj [("Page", JObj [])]), mkWorld 1
         [page_request query_user_media (dict_set "page" (JNum 1) [("perPage", JNum 50)])] [100] []) /\
  bad_page_shape (JObj [("Page", JObj [])]) /\
  exists msg, depag_loop (mock_net [PResp resp_page_empty]) 1 true query_user_media
                [("perPage", JNum 50)] 1 [] empty_world
              = (inr (AssertionError msg), mkWorld 1
                   [page_request query_user_media (dict_set "page" (JNum 1) [("perPage", JNum 50)])]
                   [100] []).
Proof.
  assert (Hreq : safe_post_request (mock_net [PResp resp_page_empty]) 1 true
    (page_request query_user_media (dict_set "page" (JNum 1) [("perPage", JNum 50)])) empty_world
    = (inl (JObj [("Page", JObj [])]), mkWorld 1
         [page_request query_user_media (dict_set "page" (JNum 1) [("perPage", JNum 50)])] [100] []))
    by reflexivity.
  assert (Hbad : bad_page_shape (JObj [("Page", JObj [])]))
    by (apply bps_down; [discriminate | apply bps_empty]).
  split; [exact Hreq|]. split; [exact Hbad|].
  exact (depaginated_request_bad_shape_fails _ O true query_user_media _ 1 [] empty_world _ _ Hreq Hbad).
Defined.

Lemma dict_set_dict_set k v v' l : dict_set k v (dict_set k v' l) = dict_set k v l.
Proof.
  induction l as [|[k' x] l IH]; simpl.
  - rewrite String.eqb_refl. reflexivity.
  - destruct (String.eqb k' k) eqn:E; simpl; rewrite E; [reflexivity|]. rewrite IH. reflexivity.
Qed.

Lemma obj_find_dict_set_same k v l : obj_find k (dict_set k v l) = Some v.
Proof.
  unfold obj_find. induction l as [|[k' x] l IH]; simpl.
  - rewrite String.eqb_refl. reflexivity.
  - destruct (String.eqb k' k) eqn:E; simpl; rewrite E; [reflexivity|]. exact IH.
Qed.

Lemma find_dict_set_other k k' v l :
  k' <> k ->
  find (fun kv => String.eqb (fst kv) k') (dict_set k v l)
  = find (fun kv => String.eqb (fst kv) k') l.
Proof.
  intros Hne. induction l as [|[k1 x] l IH]; simpl.
  - destruct (String.eqb k k') eqn:E; [apply String.eqb_eq in E; congruence|reflexivity].
  - destruct (String.eqb k1 k) eqn:E; simpl.
    + apply String.eqb_eq in E. subst k1.
      destruct (String.eqb k k') eqn:E2; [apply String.eqb_eq in E2; congruence|reflexivity].
    + destruct (String.eqb k1 k'); [reflexivity|]. exact IH.
Qed.

Lemma obj_find_dict_set_other k k' v l :
  k' <> k -> obj_find k' (dict_set k v l) = obj_find k' l.
Proof. intros Hne. unfold obj_find. rewrite find_dict_set_other by exact Hne. reflexivity. Qed.

Lemma pages_requested_more n p :
  (1 <= p)%nat -> ((p * 50 < n)%nat <-> (p < pages_requested n)%nat).
Proof.
  intros Hp. unfold pages_requested.
  pose proof (Nat.div_mod_eq (n + 49) 50) as Hdm.
  pose proof (Nat.mod_upper_bound (n + 49) 50 ltac:(lia)) as Hm.
  destruct (Nat.max_spec 1 ((n + 49) / 50)) as [[Hlt Hmax]|[Hle Hmax]]; rewrite Hmax; lia.
Qed.

Lemma pages_requested_pos n : (1 <= pages_requested n)%nat.
Proof. unfold pages_requested. lia. Qed.

Lemma page_slice_more (xs : list Json) p :
  (1 <= p)%nat ->
  firstn 50 (skipn ((p - 1) * 50) xs) ++ skipn (p * 50) xs = skipn ((p - 1) * 50) xs.
Proof.
  intros Hp. replace (p * 50)%nat with (50 + (p - 1) * 50)%nat by lia.
  rewrite <- skipn_skipn. apply firstn_skipn.
Qed.

Lemma page_slice_last (xs : list Json) p :
  (List.length xs <= p * 50)%nat ->
  firstn 50 (skipn ((p - 1) * 50) xs) = skipn ((p - 1) * 50) xs.
Proof.
  intros H. apply firstn_all2. rewrite length_skipn. lia.
Qed.

Lemma fake_page_ltb p n :
  (Z.of_nat p * 50 <? Z.of_nat n) = Nat.ltb (p * 50) n.
Proof.
  destruct (Z.ltb_spec (Z.of_nat p * 50) (Z.of_nat n));
  destruct (Nat.ltb_spec (p * 50) n); lia.
Qed.

Lemma safe_post_request_ok net f verbose req w d :
  net (List.length (sent w)) req = PResp (ok_response d) ->
  exists w', safe_post_request net (S f) verbose req w = (inl d, w') /\
    sent w' = sent w ++ [req].
Proof.
  intros Hnet.
  destruct (spr_loop_again net f verbose req None w (ok_response d) (or_introl eq_refl) Hnet eq_refl)
    as [w1 [Hl [Hs _]]].
  assert (Hloop : spr_loop net (S f) verbose req None w = (inl (ok_response d), w1)).
  { rewrite Hl. apply spr_loop_done. simpl. discriminate. }
  rewrite (safe_post_request_final_response net (S f) verbose req w (ok_response d) w1
             [("data", d)] Hloop eq_refl).
  simpl. eexists. split; [reflexivity|]. exact Hs.
Qed.

Lemma process_page_fake b sl :
  process_page (JObj [("Page", JObj [("pageInfo", JObj [("hasNextPage", JBool b)]);
                                     ("media", JList sl)])]) = inl (sl, b).
Proof. destruct b; reflexivity. Qed.

Lemma fake_source_page xs n query pv p :
  obj_find "perPage" pv = Some (JNum 50) ->
  fake_source xs n (page_request query (dict_set "page" (JNum (Z.of_nat p)) pv)) =
  PResp (ok_response (JObj [("Page", JObj [
     ("pageInfo", JObj [("hasNextPage", JBool (Nat.ltb (p * 50) (List.length xs)))]);
     ("media", JList (firstn 50 (skipn ((p - 1) * 50) xs)))])])).
Proof.
  intros Hpp. unfold fake_source.
  assert (Hv : forall q kvs, obj_get "variables" (page_request q kvs) = Some (JObj kvs))
    by reflexivity.
  rewrite Hv. unfold obj_get.
  rewrite obj_find_dict_set_same.
  rewrite obj_find_dict_set_other by discriminate. rewrite Hpp.
  rewrite fake_page_ltb.
  replace (Z.to_nat ((Z.of_nat p - 1) * 50)) with ((p - 1) * 50)%nat by lia.
  reflexivity.
Qed.

Lemma depag_loop_step net f verbose q pv pn acc w d w1 sl b :
  safe_post_request net (S f) verbose (page_request q (dict_set "page" (JNum pn) pv)) w = (inl d, w1) ->
  process_page d = inl (sl, b) ->
  depag_loop net (S f) verbose q pv pn acc w =
  if b then depag_loop net f verbose q (dict_set "page" (JNum pn) pv) (pn + 1) (acc ++ sl) w1
  else (inl (acc ++ sl), w1).
Proof.
  intros H1 H2. cbn [depag_loop]. unfold bind at 1. rewrite H1.
  unfold lift, bind. rewrite H2. destruct b; reflexivity.
Qed.

Lemma depag_loop_fake xs query verbose : forall fuel p pv acc w,
  obj_find "perPage" pv = Some (JNum 50) ->
  (1 <= p)%nat -> (p <= pages_requested (List.length xs))%nat ->
  (pages_requested (List.length xs) - p < fuel)%nat ->
  exists w', depag_loop (fake_source xs) fuel verbose query pv (Z.of_nat p) acc w
     = (inl (acc ++ skipn ((p - 1) * 50) xs), w') /\
     sent w' = sent w ++ map (fun i => page_request query (dict_set "page" (JNum (Z.of_nat i)) pv))
                             (seq p (S (pages_requested (List.length xs) - p))).
Proof.
  induction fuel as [|f IH]; intros p pv acc w Hpp Hp1 Hpn Hf; [lia|].
  set (n := pages_requested (List.length xs)) in *.
  destruct (safe_post_request_ok (fake_source xs) f verbose
              (page_request query (dict_set "page" (JNum (Z.of_nat p)) pv)) w _
              (fake_source_page xs _ query pv p Hpp)) as [w1 [Hspr Hs1]].
  rewrite (depag_loop_step _ _ _ _ _ _ _ _ _ _ _ _ Hspr (process_page_fake _ _)).
  destruct (Nat.ltb_spec (p * 50) (List.length xs)) as [Hlt|Hge].
  - apply (pages_requested_more _ _ Hp1) in Hlt. fold n in Hlt.
    replace (Z.of_nat p + 1) with (Z.of_nat (S p)) by lia.
    destruct (IH (S p) (dict_set "page" (JNum (Z.of_nat p)) pv)
                (acc ++ firstn 50 (skipn ((p - 1) * 50) xs)) w1) as [w' [Hr Hs]].
    + rewrite obj_find_dict_set_other by discriminate. exact Hpp.
    + lia.
    + lia.
    + lia.
    + exists w'. rewrite Hr. split.
      * rewrite <- app_assoc. replace (S p - 1)%nat with p by lia.
        rewrite page_slice_more by lia. reflexivity.
      * rewrite Hs, Hs1, <- app_assoc.
        rewrite (map_ext
          (fun i => page_request query (dict_set "page" (JNum (Z.of_nat i))
                      (dict_set "page" (JNum (Z.of_nat p)) pv)))
          (fun i => page_request query (dict_set "page" (JNum (Z.of_nat i)) pv)))
          by (intros i; rewrite dict_set_dict_set; reflexivity).
        replace (n - p)%nat with (S (n - S p)) by lia. reflexivity.
  - assert (Hn : n = p).
    { pose proof (pages_requested_more (List.length xs) p Hp1). fold n in H. lia. }
    exists w1. split.
    + rewrite page_slice_last by lia. reflexivity.
    + rewrite Hs1. replace (n - p)%nat with O by lia. reflexivity.
Qed.

(** C2 (as amended): served by a paginated source of [N] items with page
    size 50, [depaginated_request] returns exactly the [N] items in server
    order and sends [pages_requested N = max 1 (ceil (N/50))] requests (one
    even for [N = 0]): the [i]-th of them asks for page [i], counting from
    1, with [perPage] set to 50 over the caller's variables; each page's
    list is appended to the output and the loop stops at the first page
    whose [hasNextPage] is false. *)
Theorem depaginated_request_fake_source xs fuel verbose query variables w :
  (pages_requested (List.length xs) <= fuel)%nat ->
  exists w', depaginated_request (fake_source xs) fuel verbose query variables w = (inl xs, w') /\
    sent w' = sent w ++
      map (fun i => page_request query
                      (dict_set "page" (JNum (Z.of_nat i))
                         (dict_set "perPage" (JNum MAX_PAGE_SIZE) variables)))
          (seq 1 (pages_requested (List.length xs))) /\
    List.length (sent w') = (List.length (sent w) + pages_requested (List.length xs))%nat.
Proof.
  intros Hf. pose proof (pages_requested_pos (List.length xs)) as Hpos.
  destruct (depag_loop_fake xs query verbose fuel 1
              (dict_set "perPage" (JNum MAX_PAGE_SIZE) variables) [] w
              (obj_find_dict_set_same _ _ _) (le_n 1) Hpos ltac:(lia)) as [w' [Hr Hs]].
  exists w'. unfold depaginated_request. change 1 with (Z.of_nat 1). rewrite Hr.
  replace (S (pages_requested (List.length xs) - 1)) with (pages_requested (List.length xs)) in Hs by lia.
  split; [reflexivity|]. split; [exact Hs|].
  rewrite Hs, length_app, length_map, length_seq. reflexivity.
Qed.

Lemma depaginated_request_fake_source_witness :
  (pages_requested (List.length (repeat (JNum 7) 120)) <= 3)%nat /\
  exists w', depaginated_request (fake_source (repeat (JNum 7) 120)) 3 true query_user_media
               [("userId", JNum 5)] empty_world = (inl (repeat (JNum 7) 120), w') /\
    sent w' = sent empty_world ++
      map (fun i => page_request query_user_media
                      (dict_set "page" (JNum (Z.of_nat i))
                         (dict_set "perPage" (JNum MAX_PAGE_SIZE) [("userId", JNum 5)])))
          (seq 1 (pages_requested (List.length (repeat (JNum 7) 120)))) /\
    List.length (sent w') =
      (List.length (sent empty_world) + pages_requested (List.length (repeat (JNum 7) 120)))%nat.
Proof.
  assert (H : (pages_requested (List.length (repeat (JNum 7) 120)) <= 3)%nat) by (vm_compute; lia).
  split; [exact H|].
  exact (depaginated_request_fake_source (repeat (JNum 7) 120) 3 true query_user_media
           [("userId", JNum 5)] empty_world H).
Defined.

(** An empty source still costs one page request, where [ceil (0/50)] is 0. *)
Lemma depaginated_request_empty_source_one_request :
  let res := depaginated_request (fake_source []) 3 true query_user_media
               [("userId", JNum 5)] empty_world in
  fst res = inl [] /\ List.length (sent (snd res)) = 1%nat /\ ((0 + 50 - 1) / 50 = 0)%nat.
Proof. split; [|split]; reflexivity. Qed.

(** * Further properties of the code *)

(** ** [dict_intersection] *)

Lemma has_key_In k d : has_key k d = true <-> In k (map fst d).
Proof.
  unfold has_key. rewrite existsb_exists, in_map_iff. split.
  - intros [kv [Hin Heq]]. apply String.eqb_eq in Heq. eauto.
  - intros [kv [Heq Hin]]. exists kv. split; [exact Hin|]. apply String.eqb_eq. exact Heq.
Qed.

Lemma dict_intersection_In_iff dicts k :
  In k (dict_intersection dicts) <-> dicts <> [] /\ Forall (fun d => has_key k d = true) dicts.
Proof.
  destruct dicts as [|d0 rest]; simpl.
  - split; [contradiction|]. intros [H _]. congruence.
  - rewrite filter_In, forallb_forall, Forall_cons_iff, Forall_forall, has_key_In.
    split.
    + intros [H1 H2]. split; [discriminate|]. split; [exact H1|]. exact H2.
    + intros [_ [H1 H2]]. split; [exact H1|]. exact H2.
Qed.

(** A key is in the intersection iff the input is not empty and every
    dict of it has the key. *)
Theorem dict_intersection_In dicts k :
  In k (dict_intersection dicts) <-> dicts <> [] /\ Forall (fun d => has_key k d = true) dicts.
Proof. exact (dict_intersection_In_iff dicts k). Qed.

(** Reordering the dicts changes at most the order of the result. *)
Theorem dict_intersection_permutation dicts1 dicts2 k :
  Permutation dicts1 dicts2 ->
  (In k (dict_intersection dicts1) <-> In k (dict_intersection dicts2)).
Proof.
  intros Hp. rewrite !dict_intersection_In_iff, !Forall_forall.
  split; intros [Hne Hall]; split.
  - intros ->. symmetry in Hp. apply Permutation_nil in Hp. congruence.
  - intros d Hd. apply Hall. apply (Permutation_in _ (Permutation_sym Hp)). exact Hd.
  - intros ->. apply Permutation_nil in Hp. congruence.
  - intros d Hd. apply Hall. apply (Permutation_in _ Hp). exact Hd.
Qed.

Lemma dict_intersection_permutation_witness :
  Permutation [[("a", JNull); ("b", JNull)]; [("b", JNull)]] [[("b", JNull)]; [("a", JNull); ("b", JNull)]] /\
  (In "b" (dict_intersection [[("a", JNull); ("b", JNull)]; [("b", JNull)]]) <->
   In "b" (dict_intersection [[("b", JNull)]; [("a", JNull); ("b", JNull)]])).
Proof.
  assert (Hp : Permutation [[("a", JNull); ("b", JNull)]; [("b", JNull)]]
                           [[("b", JNull)]; [("a", JNull); ("b", JNull)]]) by apply perm_swap.
  split; [exact Hp|]. exact (dict_intersection_permutation _ _ "b" Hp).
Defined.

Lemma filter_all_true {A} (f : A -> bool) l :
  (forall x, In x l -> f x = true) -> filter f l = l.
Proof.
  induction l as [|x l IH]; intros H; simpl; [reflexivity|].
  rewrite (H x (or_introl eq_refl)), IH; [reflexivity|]. intros y Hy. apply H. right. exact Hy.
Qed.

(** When every later dict has all the keys of the first one, the result
    is the first dict's key list, in its order. *)
Theorem dict_intersection_all_keys d0 rest :
  Forall (fun d => forall k, In k (map fst d0) -> has_key k d = true) rest ->
  dict_intersection (d0 :: rest) = map fst d0.
Proof.
  intros H. simpl. apply filter_all_true. intros k Hk. apply forallb_forall.
  intros d Hd. rewrite Forall_forall in H. exact (H d Hd k Hk).
Qed.

Lemma dict_intersection_all_keys_witness :
  Forall (fun d => forall k, In k (map fst [("x", JNull); ("y", JNull)]) -> has_key k d = true)
    [[("y", JNum 1); ("x", JNum 2); ("z", JNull)]] /\
  dict_intersection [[("x", JNull); ("y", JNull)]; [("y", JNum 1); ("x", JNum 2); ("z", JNull)]]
    = map fst [("x", JNull); ("y", JNull)].
Proof.
  assert (H : Forall (fun d => forall k, In k (map fst [("x", JNull); ("y", JNull)]) -> has_key k d = true)
                [[("y", JNum 1); ("x", JNum 2); ("z", JNull)]]).
  { constructor; [|constructor]. simpl. intros k [<-|[<-|[]]]; reflexivity. }
  split; [exact H|]. exact (dict_intersection_all_keys _ _ H).
Defined.

(** ** [async_all] *)

(** [async_all] returns false on the first false item, pulling nothing
    after it, and true only after pulling every item. *)
Theorem async_all_short_circuit bs rest :
  Forall (fun b => b = true) bs ->
  async_all (bs ++ false :: rest) = (false, S (List.length bs)) /\
  async_all bs = (true, List.length bs).
Proof.
  induction 1 as [|b bs Hb _ IH]; [split; reflexivity|].
  subst b. destruct IH as [IH1 IH2]. simpl. rewrite IH1, IH2. split; reflexivity.
Qed.

Lemma async_all_short_circuit_witness :
  Forall (fun b => b = true) [true; true] /\
  async_all ([true; true] ++ false :: [true]) = (false, S (List.length [true; true])) /\
  async_all [true; true] = (true, List.length [true; true]).
Proof.
  assert (H : Forall (fun b => b = true) [true; true]) by (repeat constructor).
  split; [exact H|]. exact (async_all_short_circuit [true; true] [true] H).
Defined.

(** [async_all] is [async_any] of the negations, negated, pulling the
    same number of items. *)
Theorem async_all_async_any things :
  async_all things =
  (negb (fst (async_any (map negb things))), snd (async_any (map negb things))).
Proof.
  induction things as [|t r IH]; [reflexivity|].
  destruct t; simpl; [|reflexivity].
  rewrite IH. destruct (async_any (map negb r)); reflexivity.
Qed.

(** ** The seasons [main] searches *)

Lemma season_idx_succ idx :
  ((idx + 1) mod 4 = if idx mod 4 =? 3 then 0 else idx mod 4 + 1) /\
  ((idx + 1) / 4 = if idx mod 4 =? 3 then idx / 4 + 1 else idx / 4).
Proof.
  destruct (Z.eqb_spec (idx mod 4) 3); split; Z.div_mod_to_equations; lia.
Qed.

Lemma season_to_search_next y m i :
  season_to_search y m (i + 1) = following_season (season_to_search y m i).
Proof.
  unfold season_to_search.
  replace (m / 3 + (i + 1)) with ((m / 3 + i) + 1) by lia.
  set (idx := m / 3 + i).
  destruct (season_idx_succ idx) as [Hm Hd]. rewrite Hm, Hd.
  assert (Hr : idx mod 4 = 0 \/ idx mod 4 = 1 \/ idx mod 4 = 2 \/ idx mod 4 = 3)
    by (pose proof (Z.mod_pos_bound idx 4); lia).
  destruct Hr as [Hr|[Hr|[Hr|Hr]]]; rewrite Hr; simpl;
    f_equal; lia.
Qed.

(** The four seasons searched are four consecutive seasons, each the one
    after the previous (the year moving on after FALL), all different. *)
Theorem seasons_searched_consecutive y m :
  seasons_searched y m =
    [season_to_search y m 0;
     following_season (season_to_search y m 0);
     following_season (following_season (season_to_search y m 0));
     following_season (following_season (following_season (season_to_search y m 0)))] /\
  NoDup (seasons_searched y m).
Proof.
  assert (Hl : seasons_searched y m =
    [season_to_search y m 0;
     following_season (season_to_search y m 0);
     following_season (following_season (season_to_search y m 0));
     following_season (following_season (following_season (season_to_search y m 0)))]).
  { unfold seasons_searched. simpl map.
    rewrite <- !season_to_search_next. reflexivity. }
  split; [exact Hl|]. rewrite Hl.
  assert (Hn : In (fst (season_to_search y m 0)) season_names).
  { change (In (nth (Z.to_nat ((m / 3 + 0) mod 4)) season_names EmptyString) season_names).
    apply nth_In.
    pose proof (Z.mod_pos_bound (m / 3 + 0) 4). simpl List.length. lia. }
  destruct (season_to_search y m 0) as [name yr]. simpl in Hn.
  destruct Hn as [<-|[<-|[<-|[<-|[]]]]]; simpl;
    repeat constructor; simpl; intros H; repeat destruct H as [H|H]; try discriminate;
    try (injection H; intros; lia); try contradiction.
Qed.

(** The first season searched is the one holding the month after the
    current one: in January and February the WINTER of this year, from
    March to May the SPRING, from June to August the SUMMER, from
    September to November the FALL, and in December the WINTER of the
    next year. *)
Theorem season_to_search_first y m :
  (1 <= m <= 2 -> season_to_search y m 0 = ("WINTER", y)) /\
  (3 <= m <= 5 -> season_to_search y m 0 = ("SPRING", y)) /\
  (6 <= m <= 8 -> season_to_search y m 0 = ("SUMMER", y)) /\
  (9 <= m <= 11 -> season_to_search y m 0 = ("FALL", y)) /\
  (m = 12 -> season_to_search y m 0 = ("WINTER", y + 1)).
Proof.
  assert (Hs : forall q name c, m / 3 + 0 = q -> nth (Z.to_nat (q mod 4)) season_names EmptyString = name ->
                 q / 4 = c -> season_to_search y m 0 = (name, y + c)).
  { intros q name c Hq Hn Hc. unfold season_to_search. rewrite Hq, Hn, Hc. reflexivity. }
  split; [|split; [|split; [|split]]]; intros Hm.
  - rewrite (Hs 0 "WINTER" 0); [f_equal; lia| Z.div_mod_to_equations; lia | reflexivity | reflexivity].
  - rewrite (Hs 1 "SPRING" 0); [f_equal; lia| Z.div_mod_to_equations; lia | reflexivity | reflexivity].
  - rewrite (Hs 2 "SUMMER" 0); [f_equal; lia| Z.div_mod_to_equations; lia | reflexivity | reflexivity].
  - rewrite (Hs 3 "FALL" 0); [f_equal; lia| Z.div_mod_to_equations; lia | reflexivity | reflexivity].
  - rewrite (Hs 4 "WINTER" 1); [reflexivity| subst m; reflexivity | reflexivity | reflexivity].
Qed.

Lemma season_to_search_first_witness :
  season_to_search 2025 12 0 = ("WINTER", 2025 + 1).
Proof.
  exact (proj2 (proj2 (proj2 (proj2 (season_to_search_first 2025 12)))) eq_refl).
Defined.

(** ** [fuzzy_date_greater_or_equal_to] *)

Lemma lex_le_trans a : forall b c, lex_le a b = true -> lex_le b c = true -> lex_le a c = true.
Proof.
  induction a as [|x a IH]; intros b c Hab Hbc; [reflexivity|].
  destruct b as [|y b]; [discriminate|]. destruct c as [|z c]; [discriminate|].
  simpl in *. apply orb_true_iff in Hab, Hbc. apply orb_true_iff.
  destruct Hab as [Hab|Hab]; destruct Hbc as [Hbc|Hbc].
  - left. lia.
  - apply andb_true_iff in Hbc. left. lia.
  - apply andb_true_iff in Hab. left. lia.
  - apply andb_true_iff in Hab, Hbc. right. apply andb_true_iff. split; [lia|].
    apply (IH b); tauto.
Qed.

Lemma lex_le_cons x a y b :
  lex_le (x :: a) (y :: b) = true <-> x < y \/ (x = y /\ lex_le a b = true).
Proof.
  simpl. rewrite orb_true_iff, andb_true_iff, Z.ltb_lt, Z.eqb_eq. reflexivity.
Qed.

(** With the day unknown: if the month is unknown too, the fuzzy date is
    later when its year is at least [date]'s year, or always when the
    year is unknown as well; with a known month, when (year, month) is at
    least [date]'s (year, month). *)
Theorem fuzzy_date_coarse date y m :
  fuzzy_date_greater_or_equal_to (fuzzy_date_obj JNull JNull JNull) date = inl true /\
  fuzzy_date_greater_or_equal_to (fuzzy_date_obj (JNum y) JNull JNull) date =
    inl (dt_year date <=? y) /\
  fuzzy_date_greater_or_equal_to (fuzzy_date_obj (JNum y) (JNum m) JNull) date =
    inl ((dt_year date <? y) || ((dt_year date =? y) && (dt_month date <=? m))).
Proof.
  split; [reflexivity|]. split; [reflexivity|].
  unfold fuzzy_date_greater_or_equal_to. simpl.
  destruct (dt_year date <? y) eqn:E1; [reflexivity|].
  destruct (Z.eqb_spec y (dt_year date)), (Z.eqb_spec (dt_year date) y);
    try lia; reflexivity.
Qed.

(** With a valid calendar day: the fuzzy date is later when that day is
    after [date]'s day, or is [date]'s day and [date] is exactly
    midnight; so on [date]'s own day it counts as earlier as soon as
    [date] is past midnight. *)
Theorem fuzzy_date_day date y m d :
  0 <= dt_hour date -> 0 <= dt_minute date -> 0 <= dt_second date -> 0 <= dt_microsecond date ->
  1 <= y <= 9999 -> 1 <= m <= 12 -> 1 <= d <= days_in_month y m ->
  fuzzy_date_greater_or_equal_to (fuzzy_date_obj (JNum y) (JNum m) (JNum d)) date =
  inl ((dt_year date <? y) || ((dt_year date =? y) &&
        ((dt_month date <? m) || ((dt_month date =? m) &&
         ((dt_day date <? d) || ((dt_day date =? d) &&
          ((dt_hour date =? 0) && (dt_minute date =? 0) && (dt_second date =? 0)
           && (dt_microsecond date =? 0)))))))).
Proof.
  intros Hh Hmi Hs Hus Hy Hm Hd.
  assert (Hdim : days_in_month y m <= 31)
    by (unfold days_in_month; repeat (destruct (_ =? _) || destruct (_ || _) || destruct (is_leap _)); lia).
  unfold fuzzy_date_greater_or_equal_to. simpl.
  unfold make_datetime. simpl.
  replace ((-2147483648 <=? y) && (y <=? 2147483647)) with true
    by (symmetry; apply andb_true_iff; split; apply Z.leb_le; lia).
  replace ((-2147483648 <=? m) && (m <=? 2147483647)) with true
    by (symmetry; apply andb_true_iff; split; apply Z.leb_le; lia).
  replace ((-2147483648 <=? d) && (d <=? 2147483647)) with true
    by (symmetry; apply andb_true_iff; split; apply Z.leb_le; lia).
  simpl.
  replace ((1 <=? y) && (y <=? 9999)) with true
    by (symmetry; apply andb_true_iff; split; apply Z.leb_le; lia).
  replace ((1 <=? m) && (m <=? 12)) with true
    by (symmetry; apply andb_true_iff; split; apply Z.leb_le; lia).
  replace ((1 <=? d) && (d <=? days_in_month y m)) with true
    by (symmetry; apply andb_true_iff; split; apply Z.leb_le; lia).
  simpl. f_equal. unfold datetime_ge, dt_key. simpl.
  destruct (dt_year date <? y) eqn:E1; [reflexivity|]. simpl.
  destruct (dt_year date =? y) eqn:E2; [|reflexivity]. simpl.
  destruct (dt_month date <? m) eqn:E3; [reflexivity|]. simpl.
  destruct (dt_month date =? m) eqn:E4; [|reflexivity]. simpl.
  destruct (dt_day date <? d) eqn:E5; [reflexivity|]. simpl.
  destruct (dt_day date =? d) eqn:E6; [|reflexivity]. simpl.
  destruct (Z.ltb_spec (dt_hour date) 0); [lia|].
  destruct (Z.eqb_spec (dt_hour date) 0); simpl; [|reflexivity].
  destruct (Z.ltb_spec (dt_minute date) 0); [lia|].
  destruct (Z.eqb_spec (dt_minute date) 0); simpl; [|reflexivity].
  destruct (Z.ltb_spec (dt_second date) 0); [lia|].
  destruct (Z.eqb_spec (dt_second date) 0); simpl; [|reflexivity].
  destruct (Z.ltb_spec (dt_microsecond date) 0); [lia|].
  destruct (Z.eqb_spec (dt_microsecond date) 0); reflexivity.
Qed.

Lemma fuzzy_date_day_witness :
  let date := mkDateTime 2024 5 10 12 0 0 0 in
  fuzzy_date_greater_or_equal_to (fuzzy_date_obj (JNum 2024) (JNum 5) (JNum 10)) date = inl false.
Proof.
  intros date.
  rewrite (fuzzy_date_day date 2024 5 10); try (simpl; lia).
  - reflexivity.
  - split; [lia|]. apply Z.leb_le. reflexivity.
Defined.

(** A day outside the month (e.g. February 29 of a common year, or day
    0) makes the [datetime] constructor raise [ValueError]. *)
Theorem fuzzy_date_invalid_day date y m d :
  1 <= y <= 9999 -> 1 <= m <= 12 -> -2147483648 <= d <= 2147483647 ->
  d < 1 \/ days_in_month y m < d ->
  fuzzy_date_greater_or_equal_to (fuzzy_date_obj (JNum y) (JNum m) (JNum d)) date = inr ValueError.
Proof.
  intros Hy Hm Hd Hbad.
  unfold fuzzy_date_greater_or_equal_to. simpl. unfold make_datetime. simpl.
  replace ((-2147483648 <=? y) && (y <=? 2147483647)) with true
    by (symmetry; apply andb_true_iff; split; apply Z.leb_le; lia).
  replace ((-2147483648 <=? m) && (m <=? 2147483647)) with true
    by (symmetry; apply andb_true_iff; split; apply Z.leb_le; lia).
  replace ((-2147483648 <=? d) && (d <=? 2147483647)) with true
    by (symmetry; apply andb_true_iff; split; apply Z.leb_le; lia).
  simpl.
  replace ((1 <=? y) && (y <=? 9999)) with true
    by (symmetry; apply andb_true_iff; split; apply Z.leb_le; lia).
  replace ((1 <=? m) && (m <=? 12)) with true
    by (symmetry; apply andb_true_iff; split; apply Z.leb_le; lia).
  replace ((1 <=? d) && (d <=? days_in_month y m)) with false.
  - reflexivity.
  - symmetry. apply andb_false_iff.
    destruct Hbad; [left | right]; apply Z.leb_gt; lia.
Qed.

Lemma fuzzy_date_invalid_day_witness :
  fuzzy_date_greater_or_equal_to (fuzzy_date_obj (JNum 2023) (JNum 2) (JNum 29))
    (mkDateTime 2023 1 1 0 0 0 0) = inr ValueError.
Proof.
  apply fuzzy_date_invalid_day; try lia.
  right. reflexivity.
Defined.

(** A fuzzy date with a known month or day but no year raises
    [TypeError] (comparing or building a date from [None]): a month alone,
    a month and a day, or a day alone; a date object without a [day] key
    raises [KeyError]. *)
Theorem fuzzy_date_errors date m d kvs :
  fuzzy_date_greater_or_equal_to (fuzzy_date_obj JNull (JNum m) JNull) date = inr TypeError /\
  fuzzy_date_greater_or_equal_to (fuzzy_date_obj JNull (JNum m) (JNum d)) date = inr TypeError /\
  fuzzy_date_greater_or_equal_to (fuzzy_date_obj JNull JNull (JNum d)) date = inr TypeError /\
  (obj_find "day" kvs = None -> fuzzy_date_greater_or_equal_to (JObj kvs) date = inr KeyError).
Proof.
  split; [reflexivity|]. split; [reflexivity|]. split; [reflexivity|].
  intros H. unfold fuzzy_date_greater_or_equal_to. simpl. rewrite H. reflexivity.
Qed.

Lemma py_eq_num_py_num y yv n : py_num y = inl yv -> py_eq_num y n = (yv =? n).
Proof. destruct y; simpl; intros H; try discriminate; injection H as <-; reflexivity. Qed.

(** "Could be later than [date]" is monotone in [date]: a fuzzy date that
    passes for some [date] passes for every earlier one. *)
Theorem fuzzy_date_monotone fd date1 date2 :
  fuzzy_date_greater_or_equal_to fd date2 = inl true ->
  datetime_ge date2 date1 = true ->
  fuzzy_date_greater_or_equal_to fd date1 = inl true.
Proof.
  intros H Hle. unfold datetime_ge, dt_key in Hle.
  apply lex_le_cons in Hle.
  assert (Hy : dt_year date1 <= dt_year date2) by lia.
  assert (Hym : dt_year date1 < dt_year date2 \/
                (dt_year date1 = dt_year date2 /\ dt_month date1 <= dt_month date2)).
  { destruct Hle as [Hl|[He Hl]]; [left; exact Hl|]. apply lex_le_cons in Hl. right. lia. }
  unfold fuzzy_date_greater_or_equal_to in *.
  destruct (py_getitem fd "day") as [day|e]; simpl in *; [|discriminate].
  destruct (is_none day); simpl in *.
  - destruct (py_getitem fd "month") as [month|e]; simpl in *; [|discriminate].
    destruct (is_none month); simpl in *.
    + destruct (py_getitem fd "year") as [y|e]; simpl in *; [|discriminate].
      destruct (is_none y); simpl in *; [reflexivity|].
      destruct (py_num y) as [yv|e]; simpl in *; [|discriminate].
      injection H as H. f_equal. apply Z.leb_le in H. apply Z.leb_le. lia.
    + destruct (py_getitem fd "year") as [y|e]; simpl in *; [|discriminate].
      destruct (py_num y) as [yv|e] eqn:Eyv; simpl in *; [|discriminate].
      rewrite !(py_eq_num_py_num _ _ _ Eyv) in *.
      destruct (Z.ltb_spec (dt_year date1) yv) as [_|Hge1]; [reflexivity|].
      destruct (Z.ltb_spec (dt_year date2) yv) as [Hlt2|Hge2]; [clear -Hy Hge1 Hlt2; lia|].
      destruct (Z.eqb_spec yv (dt_year date2)) as [Hy2|Hy2]; simpl in H; [|discriminate].
      assert (Hy1 : dt_year date1 = dt_year date2) by (clear -Hy Hge1 Hy2; lia).
      rewrite Hy1, <- Hy2, Z.eqb_refl. simpl.
      destruct Hym as [Hym|[_ Hym]]; [clear -Hym Hy1; lia|].
      destruct (py_num month) as [mv|e]; simpl in *; [|discriminate].
      injection H as H. f_equal. apply Z.leb_le in H. apply Z.leb_le. lia.
  - destruct (py_getitem fd "year") as [y|e]; simpl in *; [|discriminate].
    destruct (py_getitem fd "month") as [m|e]; simpl in *; [|discriminate].
    destruct (make_datetime y m day) as [dt|e]; simpl in *; [|discriminate].
    injection H as H. f_equal. unfold datetime_ge in *.
    apply (lex_le_trans _ (dt_key date2)); [|exact H].
    unfold dt_key. apply lex_le_cons.
    destruct Hle as [Hl|[He Hl]]; [left; exact Hl|right; split; [exact He|exact Hl]].
Qed.

Lemma fuzzy_date_monotone_witness :
  fuzzy_date_greater_or_equal_to (fuzzy_date_obj (JNum 2025) JNull JNull)
    (mkDateTime 2024 1 1 0 0 0 0) = inl true.
Proof.
  apply (fuzzy_date_monotone _ _ (mkDateTime 2025 6 1 8 0 0 0)); reflexivity.
Defined.

Lemma fuzzy_date_errors_witness :
  fuzzy_date_greater_or_equal_to (JObj [("year", JNum 2024); ("month", JNum 3)])
    (mkDateTime 2024 1 1 0 0 0 0) = inr KeyError.
Proof.
  exact (proj2 (proj2 (proj2 (fuzzy_date_errors (mkDateTime 2024 1 1 0 0 0 0) 0 0
                        [("year", JNum 2024); ("month", JNum 3)]))) eq_refl).
Defined.

(** ** [safe_post_request]: output, sleeps and aborts *)

Lemma spr_loop_quiet net req : forall fuel resp0 w,
  (forall n, net n req <> PJsException) ->
  stdout (snd (spr_loop net fuel false req resp0 w)) = stdout w.
Proof.
  induction fuel as [|f IH]; intros resp0 w Hnet.
  - destruct resp0 as [r|]; simpl; [destruct (status_code r =? 429)|]; reflexivity.
  - assert (Hagain : forall w0, stdout (snd ((let! o := post net req in
        match o with
        | PJsException =>
            tell (LRetryMsg 61);; sleep 61000;; tell (LErase 61);; spr_loop net f false req resp0
        | PException => raise OtherException
        | PResp r =>
            (match header_get "Retry-After" (headers r) with
             | Some v =>
                 match parse_int v with
                 | None => raise ValueError
                 | Some n =>
                     (if false then tell (LRetryMsg (n + 1)) else ret tt);;
                     sleep ((n + 1) * 1000);;
                     (if false then tell (LErase (n + 1)) else ret tt)
                 end
             | None => sleep 100
             end);;
            spr_loop net f false req (Some r)
        end) w0)) = stdout w0).
    { intros w0. unfold bind at 1, post. simpl.
      destruct (net (List.length (sent w0)) req) as [r| |] eqn:E.
      - unfold bind. destruct (header_get "Retry-After" (headers r)) as [v|]; simpl.
        + destruct (parse_int v); simpl; [rewrite IH; [reflexivity|exact Hnet]|reflexivity].
        + rewrite IH; [reflexivity|exact Hnet].
      - exfalso. exact (Hnet _ E).
      - reflexivity. }
    destruct resp0 as [r|]; cbn [spr_loop].
    + destruct (status_code r =? 429); [apply Hagain|reflexivity].
    + apply Hagain.
Qed.

Ltac destruct_matches :=
  repeat match goal with
         | |- context [match ?x with _ => _ end] =>
             lazymatch type of x with
             | prod _ _ => fail
             | _ => destruct x; simpl
             end
         end.

(** Without [verbose], and unless the pyodide [JsException] path is taken,
    [safe_post_request] prints no rate-limit message.  It prints one line
    only for a final response that is not [ok] and whose body is a JSON
    object with an [errors] key: that key's value. *)
Theorem safe_post_request_quiet net fuel req w :
  (forall n, net n req <> PJsException) ->
  stdout (snd (safe_post_request net fuel false req w)) = stdout w \/
  exists r w1 kvs errs,
    spr_loop net fuel false req None w = (inl r, w1) /\
    response_ok (status_code r) = false /\
    body r = Some (JObj kvs) /\ obj_find "errors" kvs = Some errs /\
    stdout (snd (safe_post_request net fuel false req w)) = stdout w ++ [LValue errs].
Proof.
  intros Hnet. pose proof (spr_loop_quiet net req fuel None w Hnet) as Hq.
  unfold safe_post_request, bind.
  destruct (spr_loop net fuel false req None w) as [[r|e] w1] eqn:E;
    simpl in Hq |- *; [|left; exact Hq].
  unfold count_query, response_json, lift, tell, raise, ret. simpl.
  destruct (response_ok (status_code r)) eqn:Eok; simpl.
  { left. destruct_matches; exact Hq. }
  destruct (body r) as [j|] eqn:Eb; simpl; [|left; exact Hq].
  destruct j as [| | | s | l | kvs]; simpl; try (left; exact Hq);
    [destruct_matches; left; exact Hq | destruct_matches; left; exact Hq|].
  rewrite has_key_obj_find.
  destruct (obj_find "errors" kvs) as [errs|] eqn:Ef; simpl; [|left; exact Hq].
  right. exists r, w1, kvs, errs.
  split; [reflexivity|]. split; [exact Eok|]. split; [exact Eb|]. split; [exact Ef|].
  rewrite Hq. reflexivity.
Qed.

Lemma safe_post_request_quiet_witness :
  (forall n, mock_net [PResp resp_429; PResp resp_400_errors] n JNull <> PJsException) /\
  (stdout (snd (safe_post_request (mock_net [PResp resp_429; PResp resp_400_errors]) 3 false JNull
                  empty_world)) = stdout empty_world \/
   exists r w1 kvs errs,
     spr_loop (mock_net [PResp resp_429; PResp resp_400_errors]) 3 false JNull None empty_world
       = (inl r, w1) /\
     response_ok (status_code r) = false /\
     body r = Some (JObj kvs) /\ obj_find "errors" kvs = Some errs /\
     stdout (snd (safe_post_request (mock_net [PResp resp_429; PResp resp_400_errors])
                    3 false JNull empty_world)) = stdout empty_world ++ [LValue errs]).
Proof.
  assert (H : forall n, mock_net [PResp resp_429; PResp resp_400_errors] n JNull <> PJsException).
  { intros [|[|n]]; simpl; [discriminate|discriminate|]. destruct n; discriminate. }
  split; [exact H|]. exact (safe_post_request_quiet _ 3 JNull empty_world H).
Defined.

(** The pyodide [JsException] path prints the 61-second message and its
    eraser and sleeps 61 s whatever [verbose] says, then retries with the
    previous response unchanged. *)
Theorem spr_loop_js_exception net f verbose req resp0 w :
  (resp0 = None \/ exists r0, resp0 = Some r0 /\ status_code r0 = 429) ->
  net (List.length (sent w)) req = PJsException ->
  spr_loop net (S f) verbose req resp0 w =
  spr_loop net f verbose req resp0
    (mkWorld (total_queries w) (sent w ++ [req]) (slept_ms w ++ [61000])
       (stdout w ++ [LRetryMsg 61; LErase 61])).
Proof.
  intros Hagain Hnet.
  assert (Hs : forall w0 : World, w0 = w ->
    ((let! o := post net req in
      match o with
      | PJsException =>
          tell (LRetryMsg 61);; sleep 61000;; tell (LErase 61);; spr_loop net f verbose req resp0
      | PException => raise OtherException
      | PResp r =>
          (match header_get "Retry-After" (headers r) with
           | Some v =>
               match parse_int v with
               | None => raise ValueError
               | Some n =>
                   (if verbose then tell (LRetryMsg (n + 1)) else ret tt);;
                   sleep ((n + 1) * 1000);;
                   (if verbose then tell (LErase (n + 1)) else ret tt)
               end
           | None => sleep 100
           end);;
          spr_loop net f verbose req (Some r)
      end) w0) =
    spr_loop net f verbose req resp0
      (mkWorld (total_queries w) (sent w ++ [req]) (slept_ms w ++ [61000])
         (stdout w ++ [LRetryMsg 61; LErase 61]))).
  { intros w0 ->. unfold bind, post, tell, sleep. simpl. rewrite Hnet. simpl.
    rewrite <- ?app_assoc. reflexivity. }
  destruct Hagain as [->|[r0 [-> H429]]]; cbn [spr_loop].
  - apply Hs. reflexivity.
  - rewrite H429. apply Hs. reflexivity.
Qed.

Lemma spr_loop_js_exception_witness :
  spr_loop (mock_net [PJsException; PResp (ok_response JNull)]) 2 false JNull None empty_world =
  spr_loop (mock_net [PJsException; PResp (ok_response JNull)]) 1 false JNull None
    (mkWorld (total_queries empty_world) (sent empty_world ++ [JNull]) (slept_ms empty_world ++ [61000])
       (stdout empty_world ++ [LRetryMsg 61; LErase 61])).
Proof.
  exact (spr_loop_js_exception (mock_net [PJsException; PResp (ok_response JNull)]) 1 false JNull None
           empty_world (or_introl eq_refl) eq_refl).
Defined.


Lemma spr_loop_sent net verbose req : forall fuel resp0 w,
  exists k, sent (snd (spr_loop net fuel verbose req resp0 w)) = sent w ++ repeat req k.
Proof.
  induction fuel as [|f IH]; intros resp0 w.
  - exists O. rewrite app_nil_r.
    destruct resp0 as [r0|]; simpl; [destruct (status_code r0 =? 429)|]; reflexivity.
  - destruct resp0 as [r0|]; cbn [spr_loop];
      [destruct (status_code r0 =? 429); [|exists O; rewrite app_nil_r; reflexivity]|].
    all: unfold bind, post; simpl;
      destruct (net (List.length (sent w)) req) as [x| |]; simpl;
      [destruct (header_get "Retry-After" (headers x)) as [v|];
        [destruct (parse_int v) as [n|]; [destruct verbose|]|]| |];
      simpl;
      first [ exists 1%nat; reflexivity
            | match goal with
              | |- exists k, sent (snd (spr_loop _ _ _ _ ?r ?w0)) = _ =>
                  destruct (IH r w0) as [k Hk]; exists (S k); rewrite Hk; simpl;
                  rewrite <- app_assoc; reflexivity
              end ].
Qed.

Lemma safe_post_request_post_loop net fuel verbose req w :
  match spr_loop net fuel verbose req None w with
  | (inl r, w1) =>
      sent (snd (safe_post_request net fuel verbose req w)) = sent w1 /\
      slept_ms (snd (safe_post_request net fuel verbose req w)) = slept_ms w1
  | (inr e, w1) => safe_post_request net fuel verbose req w = (inr e, w1)
  end.
Proof.
  unfold safe_post_request, bind.
  destruct (spr_loop net fuel verbose req None w) as [[r|e] w1]; [|reflexivity].
  unfold count_query, response_json, lift, tell, raise, ret. simpl.
  destruct_matches; split; reflexivity.
Qed.








(** ** [depaginated_request]: what it sends *)

Lemma safe_post_request_sent net fuel verbose req w :
  exists k, sent (snd (safe_post_request net fuel verbose req w)) = sent w ++ repeat req k.
Proof.
  pose proof (safe_post_request_post_loop net fuel verbose req w) as Hp.
  destruct (spr_loop_sent net verbose req fuel None w) as [k Hk]. exists k.
  destruct (spr_loop net fuel verbose req None w) as [[r|e] w1]; simpl in Hk.
  - destruct Hp as [Hs _]. rewrite Hs. exact Hk.
  - rewrite Hp. exact Hk.
Qed.

Lemma Forall_repeat_same {A} (P : A -> Prop) x k : P x -> Forall P (repeat x k).
Proof. intros H. induction k; simpl; constructor; assumption. Qed.

Lemma depag_loop_sent net verbose query variables : forall fuel pv pn acc w,
  obj_find "perPage" pv = Some (JNum MAX_PAGE_SIZE) ->
  (forall k, k <> "page" -> k <> "perPage" -> obj_find k pv = obj_find k variables) ->
  1 <= pn ->
  exists l, sent (snd (depag_loop net fuel verbose query pv pn acc w)) = sent w ++ l /\
    Forall (page_req_ok query variables) l.
Proof.
  induction fuel as [|f IH]; intros pv pn acc w Hpp Hk Hpn.
  - exists []. rewrite app_nil_r. split; [reflexivity|constructor].
  - set (req := page_request query (dict_set "page" (JNum pn) pv)).
    assert (Hok : page_req_ok query variables req).
    { exists pn, (dict_set "page" (JNum pn) pv). split; [exact Hpn|]. split; [reflexivity|].
      split; [apply obj_find_dict_set_same|].
      split; [rewrite obj_find_dict_set_other by discriminate; exact Hpp|].
      intros k Hk1 Hk2. rewrite obj_find_dict_set_other by exact Hk1. apply Hk; assumption. }
    destruct (safe_post_request_sent net (S f) verbose req w) as [k Hs].
    cbn [depag_loop]. fold req. unfold bind at 1.
    destruct (safe_post_request net (S f) verbose req w) as [[d|e] w1]; simpl in Hs.
    + unfold lift, bind. destruct (process_page d) as [[items b]|e]; simpl.
      * destruct b; simpl.
        -- destruct (IH (dict_set "page" (JNum pn) pv) (pn + 1) (acc ++ items) w1) as [l [Hl Hf]].
           ++ rewrite obj_find_dict_set_other by discriminate. exact Hpp.
           ++ intros k' Hk1 Hk2. rewrite obj_find_dict_set_other by exact Hk1. apply Hk; assumption.
           ++ lia.
           ++ exists (repeat req k ++ l). rewrite Hl, Hs, app_assoc. split; [reflexivity|].
              apply Forall_app. split; [apply Forall_repeat_same; exact Hok|exact Hf].
        -- exists (repeat req k). split; [exact Hs|]. apply Forall_repeat_same. exact Hok.
      * exists (repeat req k). split; [exact Hs|]. apply Forall_repeat_same. exact Hok.
    + exists (repeat req k). split; [exact Hs|]. apply Forall_repeat_same. exact Hok.
Qed.

(** Whatever the server answers, every request [depaginated_request]
    sends carries a page number of at least 1, [perPage] 50 (replacing
    any [perPage] of the caller) and every other variable of the caller
    unchanged. *)
Theorem depaginated_request_requests net fuel verbose query variables w :
  exists l, sent (snd (depaginated_request net fuel verbose query variables w)) = sent w ++ l /\
    Forall (page_req_ok query variables) l.
Proof.
  apply depag_loop_sent.
  - apply obj_find_dict_set_same.
  - intros k _ Hk. apply obj_find_dict_set_other. exact Hk.
  - lia.
Qed.

(** ** Unwrapping pages *)

Lemma unwrap_envelope ks kvs :
  Forall (fun k => k <> "pageInfo") ks -> has_key "pageInfo" kvs = true ->
  unwrap (envelope ks (JObj kvs)) = inl (JObj kvs).
Proof.
  intros Hks Hkv. induction Hks as [|k ks Hk _ IH]; simpl.
  - rewrite Hkv. reflexivity.
  - destruct (String.eqb_spec k "pageInfo"); [contradiction|]. simpl. exact IH.
Qed.

(** Under any number of single-key envelopes (none named [pageInfo]), a
    page of two fields, [pageInfo] and one list, in either order, yields
    that list and the truth of [pageInfo.hasNextPage]. *)
Theorem process_page_envelope ks k l pi h :
  Forall (fun k => k <> "pageInfo") ks -> k <> "pageInfo" ->
  obj_find "hasNextPage" pi = Some h ->
  process_page (envelope ks (JObj [("pageInfo", JObj pi); (k, JList l)])) = inl (l, truthy h) /\
  process_page (envelope ks (JObj [(k, JList l); ("pageInfo", JObj pi)])) = inl (l, truthy h).
Proof.
  intros Hks Hk Hh.
  assert (Hkb : String.eqb k "pageInfo" = false) by (apply String.eqb_neq; exact Hk).
  split; unfold process_page; rewrite unwrap_envelope;
    try exact Hks; simpl; try rewrite Hkb; try reflexivity;
    unfold obj_find; simpl; rewrite ?Hkb; simpl; fold (obj_find "hasNextPage" pi); rewrite Hh;
    reflexivity.
Qed.

Lemma process_page_envelope_witness :
  process_page (envelope ["Media"; "staff"]
    (JObj [("pageInfo", JObj [("hasNextPage", JBool false)]); ("edges", JList [JNum 1; JNum 2])]))
  = inl ([JNum 1; JNum 2], truthy (JBool false)) /\
  process_page (envelope ["Media"; "staff"]
    (JObj [("edges", JList [JNum 1; JNum 2]); ("pageInfo", JObj [("hasNextPage", JBool false)])]))
  = inl ([JNum 1; JNum 2], truthy (JBool false)).
Proof.
  apply process_page_envelope.
  - repeat constructor; discriminate.
  - discriminate.
  - reflexivity.
Defined.

(** ** The list fetchers of [upcoming_sequels.py] *)

Lemma map_result_media ms :
  map_result (fun list_entry => py_getitem list_entry "media") (map (fun m => JObj [("media", m)]) ms)
  = inl ms.
Proof. induction ms as [|m ms IH]; simpl; [reflexivity|]. rewrite IH. reflexivity. Qed.

(** Served by a paginated source whose list entries hold the media [ms],
    [get_user_media] returns [ms] in order, asking for the pages 1, 2, ...
    with the user's ID, the status and [perPage] 50. *)
Theorem get_user_media_fake_source ms fuel user_id status w :
  (pages_requested (List.length ms) <= fuel)%nat ->
  exists w', get_user_media (fake_source (map (fun m => JObj [("media", m)]) ms)) fuel user_id status w
    = (inl ms, w') /\
    sent w' = sent w ++
      map (fun i => page_request query_user_media
                      [("userId", user_id); ("status", JStr status); ("perPage", JNum MAX_PAGE_SIZE);
                       ("page", JNum (Z.of_nat i))])
          (seq 1 (pages_requested (List.length ms))).
Proof.
  intros Hf.
  set (entries := map (fun m => JObj [("media", m)]) ms).
  assert (Hlen : List.length entries = List.length ms) by apply length_map.
  pose proof (pages_requested_pos (List.length entries)) as Hpos.
  destruct (depag_loop_fake entries query_user_media true fuel 1
              (dict_set "perPage" (JNum MAX_PAGE_SIZE) [("userId", user_id); ("status", JStr status)]) [] w
              (obj_find_dict_set_same _ _ _) (le_n 1) Hpos ltac:(rewrite Hlen in Hpos |- *; lia)) as [w' [Hr Hs]].
  exists w'. unfold get_user_media, depaginated_request, bind.
  change 1 with (Z.of_nat 1). rewrite Hr. simpl. unfold lift. split.
  - unfold entries. rewrite map_result_media. reflexivity.
  - rewrite Hs, Hlen. replace (S (pages_requested (List.length ms) - 1)) with
      (pages_requested (List.length ms)) by (pose proof (pages_requested_pos (List.length ms)); lia).
    reflexivity.
Qed.

Lemma get_user_media_fake_source_witness :
  exists w', get_user_media (fake_source (map (fun m => JObj [("media", m)]) [JNum 10; JNum 11])) 2
               (JNum 7) "PLANNING" empty_world
    = (inl [JNum 10; JNum 11], w') /\
    sent w' = sent empty_world ++
      map (fun i => page_request query_user_media
                      [("userId", JNum 7); ("status", JStr "PLANNING"); ("perPage", JNum MAX_PAGE_SIZE);
                       ("page", JNum (Z.of_nat i))])
          (seq 1 (pages_requested (List.length [JNum 10; JNum 11]))).
Proof.
  apply get_user_media_fake_source. vm_compute. lia.
Defined.

(** Served by a paginated source of [xs], [get_season_shows] returns [xs]
    in order, asking for the pages 1, 2, ... with the season, the year and
    [perPage] 50. *)
Theorem get_season_shows_fake_source xs fuel season season_year w :
  (pages_requested (List.length xs) <= fuel)%nat ->
  exists w', get_season_shows (fake_source xs) fuel season season_year w = (inl xs, w') /\
    sent w' = sent w ++
      map (fun i => page_request query_season_shows
                      [("season", JStr season); ("seasonYear", JNum season_year);
                       ("perPage", JNum MAX_PAGE_SIZE); ("page", JNum (Z.of_nat i))])
          (seq 1 (pages_requested (List.length xs))).
Proof.
  intros Hf. pose proof (pages_requested_pos (List.length xs)) as Hpos.
  destruct (depag_loop_fake xs query_season_shows true fuel 1
              (dict_set "perPage" (JNum MAX_PAGE_SIZE) [("season", JStr season); ("seasonYear", JNum season_year)])
              [] w (obj_find_dict_set_same _ _ _) (le_n 1) Hpos ltac:(lia)) as [w' [Hr Hs]].
  exists w'. unfold get_season_shows, depaginated_request.
  change 1 with (Z.of_nat 1). rewrite Hr. split; [reflexivity|].
  rewrite Hs. replace (S (pages_requested (List.length xs) - 1)) with
    (pages_requested (List.length xs)) by lia.
  reflexivity.
Qed.

Lemma get_season_shows_fake_source_witness :
  exists w', get_season_shows (fake_source [JNum 1; JNum 2; JNum 3]) 1 "FALL" 2025 empty_world
    = (inl [JNum 1; JNum 2; JNum 3], w') /\
    sent w' = sent empty_world ++
      map (fun i => page_request query_season_shows
                      [("season", JStr "FALL"); ("seasonYear", JNum 2025);
                       ("perPage", JNum MAX_PAGE_SIZE); ("page", JNum (Z.of_nat i))])
          (seq 1 (pages_requested (List.length [JNum 1; JNum 2; JNum 3]))).
Proof.
  apply get_season_shows_fake_source. vm_compute. lia.
Defined.

(** [get_user_id_by_name] sends one request, the user-ID query with the
    username as its only variable, and returns [data['User']['id']] of the
    answer ([KeyError] or [TypeError] when it is absent, e.g. a [null]
    user). *)
Theorem get_user_id_by_name_request net fuel name w d :
  net (List.length (sent w))
      (JObj [("query", JStr query_user_id); ("variables", JObj [("username", JStr name)])])
    = PResp (ok_response d) ->
  exists w', get_user_id_by_name net (S fuel) name w =
    (rbind (py_getitem d "User") (fun user => py_getitem user "id"), w') /\
    sent w' = sent w ++
      [JObj [("query", JStr query_user_id); ("variables", JObj [("username", JStr name)])]].
Proof.
  intros Hn.
  destruct (safe_post_request_ok net fuel true _ w d Hn) as [w' [Hr Hs]].
  exists w'. unfold get_user_id_by_name, bind. rewrite Hr. split; [reflexivity|exact Hs].
Qed.

Lemma get_user_id_by_name_request_witness :
  exists w', get_user_id_by_name (mock_net [PResp (ok_response (JObj [("User", JNull)]))]) 1 "nobody"
               empty_world =
    (rbind (py_getitem (JObj [("User", JNull)]) "User") (fun user => py_getitem user "id"), w') /\
    sent w' = sent empty_world ++
      [JObj [("query", JStr query_user_id); ("variables", JObj [("username", JStr "nobody")])]].
Proof.
  apply (get_user_id_by_name_request (mock_net [PResp (ok_response (JObj [("User", JNull)]))]) 0).
  reflexivity.
Defined.
